(** * CryptEx: market-data cache, signal engine and order guard

  A shallow embedding of the three core modules of the CryptEx trading
  pipeline,

    - [cryptex/strategy/simple_signal.py]   (module [Strategy]),
    - [cryptex/data/market_data.py]         (module [MarketData]),
    - [cryptex/execution/order_manager.py]  (module [Execution]),

  together with the properties of them that the specification states.

  Conventions.
    - Prices are Python floats: IEEE 754 binary64, modelled by the
      Standard Library's [spec_float] with [prec = 53], [emax = 1024].
    - Readings of [time.time()] are exact rationals [Q]: every finite
      binary64 value is a rational, and the differences [now - last] are
      taken exactly.  (Two readings of the epoch clock lie in the binade
      from 2^30 to 2^31, where binary64 subtracts them without rounding.)
    - Python dictionaries are [gmap]s.
    - A function that talks to the exchange or reads the clock is a
      computation in the monad [M]: it reads the answers of its
      collaborators from an environment, threads the state of the object
      it belongs to, may raise, and emits the list of the effects it
      performed. *)

From Stdlib Require Import ZArith QArith Lqa List String Ascii Bool Lia DecimalString.
From Stdlib Require Import Floats.SpecFloat.
From stdpp Require Import gmap strings.

Open Scope Z_scope.

(** ** Python values, exceptions and builtins *)

Module Py.

(** [httpx.Response], as far as the core looks at it. *)
Record HttpResponse := { status_code : Z; text : string }.

(** The exceptions that the modelled code can meet. *)
Inductive exn :=
| BinanceClientError (msg : string) (response : option HttpResponse)
| ValueError (msg : string)
| IndexError
| KeyError (key : string)
| TypeError
| ZeroDivisionError.

(** The outcome of evaluating an expression: a value, or a raised
    exception. *)
Inductive result (A : Type) :=
| Ok (a : A)
| Raise (e : exn).
Arguments Ok {A} a.
Arguments Raise {A} e.

#[global] Instance result_ret : MRet result := fun _ a => Ok a.
#[global] Instance result_bind : MBind result := fun _ _ f m =>
  match m with
  | Ok a => f a
  | Raise e => Raise e
  end.

(** *** Floats *)

Abbreviation float := spec_float.

Definition fadd : float -> float -> float := SFadd 53 1024.
Definition fdiv : float -> float -> float := SFdiv 53 1024.

(** [float(n)] for a Python int (round to nearest even; the
    [OverflowError] of integers beyond the binary64 range is out of reach
    of the lengths and literals used here). *)
Definition float_of_int (n : Z) : float := binary_normalize 53 1024 n 0 false.

(** [a < b], [a > b], [a == b] on floats. *)
Definition flt (a b : float) : bool := SFltb a b.
Definition fgt (a b : float) : bool := SFltb b a.
Definition feq (a b : float) : bool := SFeqb a b.

(** Truth value of a float: zero of either sign is false, everything else
    (NaN included) is true. *)
Definition float_truthy (x : float) : bool :=
  match x with
  | S754_zero _ => false
  | _ => true
  end.

(** [x / n] for a float [x] and an int [n]. *)
Definition truediv_int (x : float) (n : Z) : result float :=
  if n =? 0 then Raise ZeroDivisionError else Ok (fdiv x (float_of_int n)).

(** *** Sequences *)

(** Truth value of a list: empty is false. *)
Definition list_truthy {A} (l : list A) : bool :=
  match l with
  | [] => false
  | _ => true
  end.

(** [l[start:]] *)
Definition slice_from {A} (start : Z) (l : list A) : list A :=
  let len := Z.of_nat (length l) in
  let i := if start <? 0 then Z.max (start + len) 0 else Z.min start len in
  skipn (Z.to_nat i) l.

(** [l[i]] *)
Definition index {A} (l : list A) (i : Z) : result A :=
  let len := Z.of_nat (length l) in
  let j := if i <? 0 then i + len else i in
  if (j <? 0) || (len <=? j) then Raise IndexError
  else match l !! Z.to_nat j with
       | Some x => Ok x
       | None => Raise IndexError
       end.

(** *** Strings *)

(** [str(n)] for an int. *)
Definition str_of_int (n : Z) : string := NilZero.string_of_int (Z.to_int n).

(** [needle in hay] as a proposition. *)
Definition mentions (needle hay : string) : Prop :=
  exists pre post : string, hay = pre +:+ needle +:+ post.

(** *** JSON values on the wire

    The records of the exchange that the core reads carry integers and
    strings (numbers are sent as decimal strings). *)
Inductive json :=
| JNull
| JInt (n : Z)
| JStr (s : string).

(** [str(v)] *)
Definition str (v : json) : string :=
  match v with
  | JNull => "None"
  | JInt n => str_of_int n
  | JStr s => s
  end.

End Py.
Import Py.

(** ** [cryptex/strategy/simple_signal.py] *)

Module Strategy.

Inductive Signal := LONG | SHORT | HOLD.

#[global] Instance Signal_eq_dec : EqDecision Signal.
Proof. solve_decision. Defined.

(** [cryptex.data.market_data.Candle] *)
Record Candle := {
  open_time : Z;
  open : float;
  high : float;
  low : float;
  close : float;
  volume : float
}.

Record SimpleSignalStrategy := { ma_period : Z }.

(** [SimpleSignalStrategy.__init__] *)
Definition init (ma_period : Z) : result SimpleSignalStrategy :=
  if ma_period <? 2 then Raise (ValueError "ma_period must be at least 2")
  else Ok {| ma_period := ma_period |}.

Section Generate.

(** The builtin [sum] on a list of floats.  CPython adds from left to
    right up to 3.11 and uses compensated summation from 3.12 on; the
    development holds for either, so the function is a parameter. *)
Variable py_sum : list float -> float.

(** [SimpleSignalStrategy.compute_ma] *)
Definition compute_ma (self : SimpleSignalStrategy) (candles : list Candle)
  : result (option float) :=
  if Z.of_nat (length candles) <? ma_period self then Ok None
  else
    let closes := map close (slice_from (- ma_period self) candles) in
    ma ← truediv_int (py_sum closes) (Z.of_nat (length closes));
    Ok (Some ma).

(** [SimpleSignalStrategy.generate] *)
Definition generate (self : SimpleSignalStrategy) (candles : list Candle)
  : result Signal :=
  if negb (list_truthy candles) then Ok HOLD
  else
    ma ← compute_ma self candles;
    match ma with
    | None => Ok HOLD
    | Some ma =>
        last ← index candles (-1);
        let last_close := close last in
        if fgt last_close ma then Ok LONG
        else if flt last_close ma then Ok SHORT
        else Ok HOLD
    end.

(** The moving average in the words of the specification: the arithmetic
    mean of the [close] field over the last [period] candles, taken in
    chronological order. *)
Definition last_n {A} (n : nat) (l : list A) : list A :=
  rev (firstn n (rev l)).

Definition mean_close_of_last (period : Z) (candles : list Candle) : float :=
  fdiv (py_sum (map close (last_n (Z.to_nat period) candles)))
       (float_of_int period).

End Generate.

(** Left-to-right summation, the [sum] of CPython up to 3.11. *)
Definition sum_left (l : list float) : float :=
  fold_left fadd l (S754_zero false).

End Strategy.

Import Strategy.

(** ** Effects: the exchange, the clock and the disk *)

Module Effects.

(** [a < b] on clock readings. *)
Definition Qltb (a b : Q) : bool := negb (Qle_bool b a).

(** What a function did to the outside world: the calls it made to the
    exchange client, in order, and the files it wrote. *)
Inductive effect :=
| CallGetKlines (symbol interval : string) (limit : Z)
| CallGetTickerPrice (symbol : string)
| CallGetOpenOrders (symbol : string)
| CallPlaceMarketOrder (symbol side : string) (quantity : float)
| WriteFile (path : string) (candles : list Candle).

Definition is_exchange_call (e : effect) : bool :=
  match e with
  | WriteFile _ _ => false
  | _ => true
  end.

Definition is_order_submission (e : effect) : bool :=
  match e with
  | CallPlaceMarketOrder _ _ _ => true
  | _ => false
  end.

Definition exchange_calls (t : list effect) : list effect :=
  List.filter is_exchange_call t.

Definition submissions (t : list effect) : list effect :=
  List.filter is_order_submission t.

(** How an endpoint of [BinanceClient] ends: with the decoded body, or with
    the one typed error of the client. *)
Inductive reply (A : Type) :=
| Answer (a : A)
| ClientError (msg : string) (response : option HttpResponse).
Arguments Answer {A} a.
Arguments ClientError {A} msg response.

Definition outcome_of_reply {A} (r : reply A) : result A :=
  match r with
  | Answer a => Ok a
  | ClientError msg response => Raise (BinanceClientError msg response)
  end.

(** A computation reads an environment [E] (what the collaborators will
    answer), threads the state [S] of [self], ends in a value or an
    exception, and lists the effects it performed.  State changes made
    before an exception is raised persist, as in Python. *)
Definition M (E S A : Type) : Type := E -> S -> result A * S * list effect.

#[global] Instance M_ret {E S} : MRet (M E S) := fun _ a _ s => (Ok a, s, []).
#[global] Instance M_bind {E S} : MBind (M E S) := fun _ _ f m env s =>
  match m env s with
  | (Ok a, s1, t1) => let '(r, s2, t2) := f a env s1 in (r, s2, t1 ++ t2)
  | (Raise e, s1, t1) => (Raise e, s1, t1)
  end.

Definition get_self {E S} : M E S S := fun _ s => (Ok s, s, []).
Definition set_self {E S} (s : S) : M E S unit := fun _ _ => (Ok tt, s, []).
Definition modify_self {E S} (f : S -> S) : M E S unit := fun _ s => (Ok tt, f s, []).
Definition asks {E S A} (f : E -> A) : M E S A := fun env s => (Ok (f env), s, []).
Definition emit {E S} (e : effect) : M E S unit := fun _ s => (Ok tt, s, [e]).
Definition lift {E S A} (r : result A) : M E S A := fun _ s => (r, s, []).

(** [try: body  except BinanceClientError as e: handler e]; any other
    exception passes through. *)
Definition try_except_BinanceClientError {E S A}
  (body : M E S A) (handler : string -> option HttpResponse -> M E S A) : M E S A :=
  fun env s =>
    match body env s with
    | (Raise (BinanceClientError msg response), s1, t1) =>
        let '(r, s2, t2) := handler msg response env s1 in (r, s2, t1 ++ t2)
    | other => other
    end.

(** An awaited call of a client endpoint: the call is recorded, the reply is
    the one the environment holds for it. *)
Definition await_client {E S A} (call : effect) (answer : E -> reply A) : M E S A :=
  _ ← emit call; r ← asks answer; lift (outcome_of_reply r).

(** Projections of what a computation returns. *)
Definition value_of {S A} (o : result A * S * list effect) : result A := o.1.1.
Definition state_of {S A} (o : result A * S * list effect) : S := o.1.2.
Definition trace_of {S A} (o : result A * S * list effect) : list effect := o.2.

End Effects.
Import Effects.

(** ** [cryptex/data/market_data.py] *)

Module MarketData.

Abbreviation dict := (gmap string json).

(** [Candle.from_binance], over the builtins [int] and [float]. *)
Section Decode.

(** [int(s)] and [float(s)] for a string. *)
Variable int_of_str : string -> result Z.
Variable float_of_str : string -> result float.

Definition py_int (v : json) : result Z :=
  match v with
  | JInt n => Ok n
  | JStr s => int_of_str s
  | JNull => Raise TypeError
  end.

Definition py_float (v : json) : result float :=
  match v with
  | JInt n => Ok (float_of_int n)
  | JStr s => float_of_str s
  | JNull => Raise TypeError
  end.

Definition from_binance (raw : list json) : result Candle :=
  r0 ← index raw 0; open_time ← py_int r0;
  r1 ← index raw 1; open ← py_float r1;
  r2 ← index raw 2; high ← py_float r2;
  r3 ← index raw 3; low ← py_float r3;
  r4 ← index raw 4; close ← py_float r4;
  r5 ← index raw 5; volume ← py_float r5;
  Ok {| open_time := open_time; open := open; high := high; low := low;
        close := close; volume := volume |}.

(** [[Candle.from_binance(k) for k in raw]] *)
Fixpoint decode_all (raw : list (list json)) : result (list Candle) :=
  match raw with
  | [] => Ok []
  | k :: rest => c ← from_binance k; cs ← decode_all rest; Ok (c :: cs)
  end.

End Decode.

Record MarketDataCache := {
  candles : list Candle;
  ticker_price : option float;
  last_updated : Q;
  ttl_seconds : Z
}.

(** [MarketDataCache(ttl_seconds=ttl)] *)
Definition new_cache (ttl : Z) : MarketDataCache :=
  {| candles := []; ticker_price := None; last_updated := 0%Q; ttl_seconds := ttl |}.

(** [MarketDataCache.is_stale]; [now] is the reading of [time.time()]. *)
Definition is_stale (self : MarketDataCache) (now : Q) : bool :=
  Qltb (inject_Z (ttl_seconds self)) (now - last_updated self)%Q.

(** [MarketDataCache.update_candles]; [now] is the reading of [time.time()]. *)
Definition update_candles (self : MarketDataCache) (cs : list Candle) (now : Q)
  : MarketDataCache :=
  {| candles := cs; ticker_price := ticker_price self;
     last_updated := now; ttl_seconds := ttl_seconds self |}.

(** [MarketDataCache.update_ticker] *)
Definition update_ticker (self : MarketDataCache) (price : float) (now : Q)
  : MarketDataCache :=
  {| candles := candles self; ticker_price := Some price;
     last_updated := now; ttl_seconds := ttl_seconds self |}.

Record MarketDataService := {
  symbol : string;
  timeframe : string;
  _cache : MarketDataCache;
  _data_dir : string
}.

(** [MarketDataService.__init__]; the default directory is [.data] (that the
    directory is created on the way is left out). *)
Definition new_service (symbol timeframe : string) (cache_ttl_seconds : Z)
  (data_dir : option string) : MarketDataService :=
  {| symbol := symbol; timeframe := timeframe;
     _cache := new_cache cache_ttl_seconds;
     _data_dir := default ".data" data_dir |}.

Definition with_cache (self : MarketDataService) (c : MarketDataCache)
  : MarketDataService :=
  {| symbol := symbol self; timeframe := timeframe self; _cache := c;
     _data_dir := _data_dir self |}.

(** Truth value of [self._cache.ticker_price], a float or [None]. *)
Definition price_truthy (p : option float) : bool :=
  match p with
  | Some x => float_truthy x
  | None => false
  end.

(** The conditions under which [get_klines] and [get_ticker_price] return
    the cached value, and the file that [_persist_candles] writes. *)
Definition klines_hit (self : MarketDataService) (force_refresh : bool) (now : Q)
  : bool :=
  negb force_refresh && negb (is_stale (_cache self) now)
  && list_truthy (candles (_cache self)).

Definition ticker_hit (self : MarketDataService) (force_refresh : bool) (now : Q)
  : bool :=
  negb force_refresh && negb (is_stale (_cache self) now)
  && price_truthy (ticker_price (_cache self)).

Definition candles_file (self : MarketDataService) : string :=
  _data_dir self +:+ "/" +:+ symbol self +:+ "_" +:+ timeframe self +:+ ".json".

(** What the outside holds for one call of [get_klines]: the clock when
    [is_stale] reads it, the reply of the exchange, the clock when
    [update_candles] reads it, and whether the file can be written. *)
Record KlinesEnv := {
  k_now_check : Q;
  k_reply : reply (list (list json));
  k_now_update : Q;
  k_disk_ok : bool
}.

(** The same for one call of [get_ticker_price]. *)
Record TickerEnv := {
  t_now_check : Q;
  t_reply : reply dict;
  t_now_update : Q
}.

Section Service.

Variable int_of_str : string -> result Z.
Variable float_of_str : string -> result float.

(** [MarketDataService._persist_candles]: an [OSError] of the write is
    logged and swallowed. *)
Definition _persist_candles (cs : list Candle) : M KlinesEnv MarketDataService unit :=
  self ← get_self;
  let filepath := candles_file self in
  ok ← asks k_disk_ok;
  if ok : bool then emit (WriteFile filepath cs) else mret tt.

(** [MarketDataService.get_klines] *)
Definition get_klines (limit : Z) (force_refresh : bool)
  : M KlinesEnv MarketDataService (list Candle) :=
  self ← get_self;
  now ← asks k_now_check;
  if negb force_refresh && negb (is_stale (_cache self) now)
     && list_truthy (candles (_cache self))
  then mret (candles (_cache self))
  else
    raw ← await_client
            (CallGetKlines (symbol self) (timeframe self) limit) k_reply;
    cs ← lift (decode_all int_of_str float_of_str raw);
    now ← asks k_now_update;
    _ ← modify_self (fun self => with_cache self (update_candles (_cache self) cs now));
    _ ← _persist_candles cs;
    mret cs.

(** [data["price"]] *)
Definition getitem (d : dict) (key : string) : result json :=
  match d !! key with
  | Some v => Ok v
  | None => Raise (KeyError key)
  end.

(** [MarketDataService.get_ticker_price]; the cached price is a float or
    [None], and only a float can be true. *)
Definition get_ticker_price (force_refresh : bool)
  : M TickerEnv MarketDataService float :=
  self ← get_self;
  now ← asks t_now_check;
  let fetch : M TickerEnv MarketDataService float :=
    data ← await_client (CallGetTickerPrice (symbol self)) t_reply;
    v ← lift (getitem data "price");
    price ← lift (py_float float_of_str v);
    now ← asks t_now_update;
    _ ← modify_self (fun self => with_cache self (update_ticker (_cache self) price now));
    mret price in
  match ticker_price (_cache self) with
  | Some cached =>
      if negb force_refresh && negb (is_stale (_cache self) now)
         && float_truthy cached
      then mret cached
      else fetch
  | None => fetch
  end.

End Service.

End MarketData.

(** ** [cryptex/execution/order_manager.py] *)

Module Execution.

Abbreviation dict := (gmap string json).

(** What [OrderResult.response] holds: the decoded body of a placed order,
    or the [httpx.Response] attached to a [BinanceClientError]. *)
Inductive payload :=
| Body (d : dict)
| Http (r : HttpResponse).

Record OrderResult := {
  success : bool;
  order_id : option string;
  message : string;
  response : option payload
}.

Record OrderManager := {
  symbol : string;
  position_size : float;
  order_type : string;
  order_cooldown_seconds : Z;
  _last_order_time : gmap string Q
}.

(** [str.upper] on the ASCII letters. *)
Definition upper_char (c : ascii) : ascii :=
  let n := N_of_ascii c in
  if ((97 <=? n) && (n <=? 122))%N then ascii_of_N (n - 32) else c.

Fixpoint upper (s : string) : string :=
  match s with
  | EmptyString => EmptyString
  | String c rest => String (upper_char c) (upper rest)
  end.

(** [OrderManager.__init__] *)
Definition new_manager (symbol : string) (position_size : float)
  (order_type : string) (order_cooldown_seconds : Z) : OrderManager :=
  {| symbol := symbol; position_size := position_size;
     order_type := upper order_type;
     order_cooldown_seconds := order_cooldown_seconds;
     _last_order_time := ∅ |}.

Definition with_last_order_time (self : OrderManager) (m : gmap string Q)
  : OrderManager :=
  {| symbol := symbol self; position_size := position_size self;
     order_type := order_type self;
     order_cooldown_seconds := order_cooldown_seconds self;
     _last_order_time := m |}.

(** What the outside holds for one call of [execute]: the reply to
    [get_open_orders], the clock when [_is_on_cooldown] reads it, the reply
    to [place_market_order], and the clock when [_record_order] reads it. *)
Record ExecEnv := {
  open_orders_reply : reply (list dict);
  now_cooldown : Q;
  place_reply : reply dict;
  now_record : Q
}.

Definition with_open_orders_reply (env : ExecEnv) (r : reply (list dict)) : ExecEnv :=
  {| open_orders_reply := r; now_cooldown := now_cooldown env;
     place_reply := place_reply env; now_record := now_record env |}.

(** [OrderManager.has_open_orders] *)
Definition has_open_orders : M ExecEnv OrderManager bool :=
  try_except_BinanceClientError
    (self ← get_self;
     orders ← await_client (CallGetOpenOrders (symbol self)) open_orders_reply;
     mret (0 <? Z.of_nat (length orders)))
    (fun _ _ => mret true).

(** [OrderManager._is_on_cooldown] *)
Definition _is_on_cooldown (side : string) : M ExecEnv OrderManager bool :=
  self ← get_self;
  let last := default 0%Q (_last_order_time self !! side) in
  now ← asks now_cooldown;
  mret (Qltb (now - last)%Q (inject_Z (order_cooldown_seconds self))).

(** [OrderManager._record_order] *)
Definition _record_order (side : string) : M ExecEnv OrderManager unit :=
  now ← asks now_record;
  modify_self (fun self =>
    with_last_order_time self (<[side := now]> (_last_order_time self))).

(** ["BUY" if signal == Signal.LONG else "SELL"] *)
Definition side_of (signal : Signal) : string :=
  if bool_decide (signal = LONG) then "BUY" else "SELL".

Definition open_orders_message (side symbol : string) : string :=
  "Skipping " +:+ side +:+ ": open orders exist for " +:+ symbol.

Definition cooldown_message (side : string) (seconds : Z) : string :=
  "Skipping " +:+ side +:+ ": cooldown active (" +:+ str_of_int seconds +:+ "s)".

(** The five [OrderResult]s that [execute] builds. *)
Definition hold_result : OrderResult :=
  {| success := true; order_id := None; message := "HOLD - no order placed";
     response := None |}.

Definition skipped_open_orders (side symbol : string) : OrderResult :=
  {| success := false; order_id := None;
     message := open_orders_message side symbol; response := None |}.

Definition skipped_cooldown (side : string) (seconds : Z) : OrderResult :=
  {| success := false; order_id := None;
     message := cooldown_message side seconds; response := None |}.

Definition placed (result : dict) : OrderResult :=
  let order_id := str (default (JStr "") (result !! "orderId")) in
  {| success := true; order_id := Some order_id;
     message := "Order placed: " +:+ order_id; response := Some (Body result) |}.

Definition rejected (msg : string) (resp : option HttpResponse) : OrderResult :=
  {| success := false; order_id := None; message := msg; response := Http <$> resp |}.

(** [OrderManager.execute] *)
Definition execute (signal : Signal) : M ExecEnv OrderManager OrderResult :=
  if bool_decide (signal = HOLD) then mret hold_result
  else
    let side := side_of signal in
    self ← get_self;
    open ← has_open_orders;
    if open : bool then mret (skipped_open_orders side (symbol self))
    else
      cooling ← _is_on_cooldown side;
      if cooling : bool
      then mret (skipped_cooldown side (order_cooldown_seconds self))
      else
        try_except_BinanceClientError
          (result ← await_client
                      (CallPlaceMarketOrder (symbol self) side (position_size self))
                      place_reply;
           _ ← _record_order side;
           mret (placed result))
          (fun msg resp => mret (rejected msg resp)).

(** What [has_open_orders] and [_is_on_cooldown] come to, read off the
    environment and the manager. *)
Definition reports_open_orders (env : ExecEnv) : bool :=
  match open_orders_reply env with
  | Answer orders => 0 <? Z.of_nat (length orders)
  | ClientError _ _ => true
  end.

Definition cooling_down (om : OrderManager) (side : string) (now : Q) : bool :=
  Qltb (now - default 0%Q (_last_order_time om !! side))%Q
       (inject_Z (order_cooldown_seconds om)).

Definition is_answer {A} (r : reply A) : bool :=
  match r with
  | Answer _ => true
  | ClientError _ _ => false
  end.

(** An order was sent to the exchange and the exchange accepted it. *)
Definition submission_succeeded (env : ExecEnv)
  (o : result OrderResult * OrderManager * list effect) : bool :=
  list_truthy (submissions (trace_of o)) && is_answer (place_reply env).

(** An order was sent to the exchange and the exchange refused it. *)
Definition submission_rejected (env : ExecEnv)
  (o : result OrderResult * OrderManager * list effect) : bool :=
  list_truthy (submissions (trace_of o)) && negb (is_answer (place_reply env)).

End Execution.

(** ** [execute] as a coroutine

    [execute] is an [async def]: the event loop can switch to another task
    exactly where it awaits the exchange, in [client.get_open_orders] and in
    [client.place_market_order]; the code between two awaits runs without
    interruption.  A task is the coroutine at one of these points. *)

Module Async.
Import Execution.

Inductive task :=
| Created (signal : Signal)
| AwaitingOpenOrders (signal : Signal)
| AwaitingPlacement (signal : Signal)
| Finished (r : OrderResult).

(** Run a task up to its next await (or to its end) on the shared manager.
    [env] holds the replies to the requests of this task and the clock
    readings of its segments. *)
Definition resume (env : ExecEnv) (t : task) (om : OrderManager)
  : task * OrderManager * list effect :=
  match t with
  | Created signal =>
      if bool_decide (signal = HOLD) then (Finished hold_result, om, [])
      else (AwaitingOpenOrders signal, om, [CallGetOpenOrders (symbol om)])
  | AwaitingOpenOrders signal =>
      let side := side_of signal in
      if reports_open_orders env
      then (Finished (skipped_open_orders side (symbol om)), om, [])
      else
        if cooling_down om side (now_cooldown env)
        then (Finished (skipped_cooldown side (order_cooldown_seconds om)), om, [])
        else (AwaitingPlacement signal, om,
              [CallPlaceMarketOrder (symbol om) side (position_size om)])
  | AwaitingPlacement signal =>
      let side := side_of signal in
      match place_reply env with
      | Answer result =>
          (Finished (placed result),
           with_last_order_time om (<[side := now_record env]> (_last_order_time om)),
           [])
      | ClientError msg resp => (Finished (rejected msg resp), om, [])
      end
  | Finished r => (Finished r, om, [])
  end.

(** Two [execute] tasks on one [OrderManager]. *)
Inductive who := TaskA | TaskB.

Record system := {
  manager : OrderManager;
  task_a : task;
  task_b : task;
  log : list effect
}.

Definition start (om : OrderManager) (signal_a signal_b : Signal) : system :=
  {| manager := om; task_a := Created signal_a; task_b := Created signal_b;
     log := [] |}.

(** The event loop resumes one of the two tasks. *)
Definition step (env_a env_b : ExecEnv) (s : system) (w : who) : system :=
  match w with
  | TaskA =>
      let '(t, om, eff) := resume env_a (task_a s) (manager s) in
      {| manager := om; task_a := t; task_b := task_b s; log := log s ++ eff |}
  | TaskB =>
      let '(t, om, eff) := resume env_b (task_b s) (manager s) in
      {| manager := om; task_a := task_a s; task_b := t; log := log s ++ eff |}
  end.

Definition run_schedule (env_a env_b : ExecEnv) (schedule : list who) (s : system)
  : system :=
  fold_left (step env_a env_b) schedule s.

(** A task run alone from its creation to its end. *)
Definition run_alone (env : ExecEnv) (signal : Signal) (om : OrderManager)
  : task * OrderManager * list effect :=
  let '(t1, om1, e1) := resume env (Created signal) om in
  let '(t2, om2, e2) := resume env t1 om1 in
  let '(t3, om3, e3) := resume env t2 om2 in
  (t3, om3, e1 ++ e2 ++ e3).

(** The two schedules in which one call returns before the other starts. *)
Definition a_then_b : list who := [TaskA; TaskA; TaskA; TaskB; TaskB; TaskB].
Definition b_then_a : list who := [TaskB; TaskB; TaskB; TaskA; TaskA; TaskA].

(** A finished task, as the outcome of a call. *)
Definition outcome_of (x : task * OrderManager * list effect)
  : option (result OrderResult * OrderManager * list effect) :=
  match x with
  | (Finished r, om, t) => Some (Ok r, om, t)
  | _ => None
  end.

Definition result_of (t : task) : option OrderResult :=
  match t with
  | Finished r => Some r
  | _ => None
  end.

End Async.

(** ** Sequences of cache requests *)

Module Session.
Import MarketData.

Inductive request :=
| GetKlines (limit : Z) (force_refresh : bool) (env : KlinesEnv)
| GetTickerPrice (force_refresh : bool) (env : TickerEnv).

Inductive answer :=
| Klines (r : result (list Candle))
| Price (r : result float).

(** A [get_klines] (a [get_ticker_price]) request without [force_refresh]
    whose clock reading is at most [ttl] past the time [t]. *)
Definition fresh_klines_request (t : Q) (ttl : Z) (r : request) : Prop :=
  match r with
  | GetKlines _ force env =>
      force = false /\ (k_now_check env - t <= inject_Z ttl)%Q
  | GetTickerPrice _ _ => False
  end.

Definition fresh_ticker_request (t : Q) (ttl : Z) (r : request) : Prop :=
  match r with
  | GetKlines _ _ _ => False
  | GetTickerPrice force env =>
      force = false /\ (t_now_check env - t <= inject_Z ttl)%Q
  end.

(** Whether a call went to the exchange, and whether it wrote its entry. *)
Definition fetched {S A} (o : result A * S * list effect) : bool :=
  list_truthy (exchange_calls (trace_of o)).

Definition is_ok {A} (r : result A) : bool :=
  match r with
  | Ok _ => true
  | Raise _ => false
  end.

Definition wrote {S A} (o : result A * S * list effect) : bool :=
  fetched o && is_ok (value_of o).

(** The times at which each entry, and either entry, was last written:
    bookkeeping about a run, not state of the program. *)
Record capture_times := {
  candles_at : option Q;
  quote_at : option Q;
  latest_at : option Q
}.

Definition never_written : capture_times :=
  {| candles_at := None; quote_at := None; latest_at := None |}.

(** The books agree with the cache when its capture time is the time of the
    latest write, which is the write of one of the two entries. *)
Definition books_agree (svc : MarketDataService) (g : capture_times) : Prop :=
  last_updated (_cache svc) = default 0%Q (latest_at g) /\
  (latest_at g = candles_at g \/ latest_at g = quote_at g).

Section Run.

Variable int_of_str : string -> result Z.
Variable float_of_str : string -> result float.

Definition serve (svc : MarketDataService) (r : request)
  : answer * MarketDataService * list effect :=
  match r with
  | GetKlines limit force env =>
      let o := get_klines int_of_str float_of_str limit force env svc in
      (Klines (value_of o), state_of o, trace_of o)
  | GetTickerPrice force env =>
      let o := get_ticker_price float_of_str force env svc in
      (Price (value_of o), state_of o, trace_of o)
  end.

Definition note (g : capture_times) (svc : MarketDataService) (r : request)
  : capture_times :=
  match r with
  | GetKlines limit force env =>
      if wrote (get_klines int_of_str float_of_str limit force env svc)
      then {| candles_at := Some (k_now_update env); quote_at := quote_at g;
              latest_at := Some (k_now_update env) |}
      else g
  | GetTickerPrice force env =>
      if wrote (get_ticker_price float_of_str force env svc)
      then {| candles_at := candles_at g; quote_at := Some (t_now_update env);
              latest_at := Some (t_now_update env) |}
      else g
  end.

(** Serve the requests one after the other. *)
Fixpoint run (reqs : list request) (svc : MarketDataService)
  : list answer * MarketDataService * list effect :=
  match reqs with
  | [] => ([], svc, [])
  | r :: rest =>
      let '(a, svc1, t1) := serve svc r in
      let '(answers, svc2, t2) := run rest svc1 in
      (a :: answers, svc2, t1 ++ t2)
  end.

(** The same, keeping the books. *)
Fixpoint replay (reqs : list request) (svc : MarketDataService) (g : capture_times)
  : MarketDataService * capture_times :=
  match reqs with
  | [] => (svc, g)
  | r :: rest => replay rest (serve svc r).1.2 (note g svc r)
  end.

End Run.

End Session.

(** ** Concrete data for the examples *)

Module Examples.
Import MarketData Execution.

Definition candle_closing_at (c : Z) : Candle :=
  {| open_time := 0; open := float_of_int c; high := float_of_int c;
     low := float_of_int c; close := float_of_int c;
     volume := float_of_int 100 |}.

(** The default position size, 0.001. *)
Definition size_0_001 : float := fdiv (float_of_int 1) (float_of_int 1000).

(** A manager with a cooldown of 60 seconds and no order placed yet. *)
Definition om0 : OrderManager := new_manager "BTCUSDT" size_0_001 "MARKET" 60.

Definition accepted (id : Z) : reply Execution.dict :=
  Answer {[ "orderId" := JInt id ]}.

(** No open orders, and the exchange accepts the order; the clock reads
    [t] at the cooldown check and [t + 1] when the order is recorded. *)
Definition env_accept (t : Z) (id : Z) : ExecEnv :=
  {| open_orders_reply := Answer []; now_cooldown := inject_Z t;
     place_reply := accepted id; now_record := inject_Z (t + 1) |}.

(** The same with the two clock readings given apart. *)
Definition env_accept_at (t_check t_record : Z) (id : Z) : ExecEnv :=
  {| open_orders_reply := Answer []; now_cooldown := inject_Z t_check;
     place_reply := accepted id; now_record := inject_Z t_record |}.

(** Task A, then B, then A, and so on: the two calls overlap. *)
Definition interleaved : list Async.who :=
  [Async.TaskA; Async.TaskB; Async.TaskA; Async.TaskB; Async.TaskA; Async.TaskB].

(** No open orders, and the exchange rejects the order. *)
Definition env_reject (t : Z) : ExecEnv :=
  {| open_orders_reply := Answer []; now_cooldown := inject_Z t;
     place_reply := ClientError "Insufficient balance" None;
     now_record := inject_Z (t + 1) |}.

(** An order that is open on the exchange. *)
Definition open_order : Execution.dict := {[ "orderId" := JStr "existing" ]}.

(** The open-orders query fails. *)
Definition env_query_fails (t : Z) : ExecEnv :=
  {| open_orders_reply := ClientError "API error" None;
     now_cooldown := inject_Z t;
     place_reply := accepted 12345; now_record := inject_Z (t + 1) |}.

(** [int] and [float] on plain unsigned decimal literals, as the exchange
    sends them: ["50050"], ["50100.00"].  The quotient of two integers that
    binary64 holds exactly is rounded once, so [float] is correctly rounded
    for literals of up to 15 digits. *)
Definition digit_of (c : ascii) : option Z :=
  let n := Z.of_N (N_of_ascii c) in
  if (48 <=? n) && (n <=? 57) then Some (n - 48) else None.

Fixpoint digits (s : string) (acc : Z) : option Z :=
  match s with
  | EmptyString => Some acc
  | String c rest =>
      match digit_of c with
      | Some d => digits rest (10 * acc + d)
      | None => None
      end
  end.

Fixpoint split_at_dot (s : string) : string * option string :=
  match s with
  | EmptyString => (EmptyString, None)
  | String c rest =>
      if Ascii.eqb c "."%char then (EmptyString, Some rest)
      else let '(whole, frac) := split_at_dot rest in (String c whole, frac)
  end.

Definition decimal_int_of_str (s : string) : result Z :=
  match s, digits s 0 with
  | String _ _, Some n => Ok n
  | _, _ => Raise (ValueError ("invalid literal for int() with base 10: '" +:+ s +:+ "'"))
  end.

Definition decimal_float_of_str (s : string) : result float :=
  let bad := Raise (ValueError ("could not convert string to float: '" +:+ s +:+ "'")) in
  let '(whole, frac) := split_at_dot s in
  let frac := default EmptyString frac in
  match whole +:+ frac, digits (whole +:+ frac) 0 with
  | String _ _, Some n =>
      Ok (fdiv (float_of_int n) (float_of_int (10 ^ Z.of_nat (String.length frac))))
  | _, _ => bad
  end.

(** The klines and the quote of the test suite. *)
Definition two_klines : list (list json) :=
  [ [JInt 1000000; JStr "50000"; JStr "50100"; JStr "49900"; JStr "50050"; JStr "100"];
    [JInt 1000060; JStr "50050"; JStr "50200"; JStr "50000"; JStr "50150"; JStr "110"] ].

(** The two candles that these klines decode to. *)
Definition two_candles : list Candle :=
  match decode_all decimal_int_of_str decimal_float_of_str two_klines with
  | Ok cs => cs
  | Raise _ => []
  end.

Definition quote_50100 : MarketData.dict := {[ "price" := JStr "50100.00" ]}.

Definition price_50100 : float := float_of_int 50100.

(** A service with a TTL of 30 seconds that has fetched nothing yet. *)
Definition svc0 : MarketDataService := new_service "BTCUSDT" "5m" 30 None.

(** A [get_klines] call at time [t] to which the exchange answers [raw]. *)
Definition klines_env (t : Z) (raw : list (list json)) : KlinesEnv :=
  {| k_now_check := inject_Z t; k_reply := Answer raw;
     k_now_update := inject_Z t; k_disk_ok := true |}.

(** A [get_klines] call at time [t] that the exchange fails. *)
Definition klines_env_failing (t : Z) : KlinesEnv :=
  {| k_now_check := inject_Z t; k_reply := ClientError "Request timed out: " None;
     k_now_update := inject_Z t; k_disk_ok := true |}.

(** A [get_ticker_price] call at time [t], answered with [data]. *)
Definition ticker_env (t : Z) (data : MarketData.dict) : TickerEnv :=
  {| t_now_check := inject_Z t; t_reply := Answer data;
     t_now_update := inject_Z t |}.

End Examples.

(** ** Variations of what the outside holds *)

Module Outside.
Import MarketData.

(** The same call of [get_klines], with the disk in the given state. *)
Definition with_disk_ok (env : KlinesEnv) (ok : bool) : KlinesEnv :=
  {| k_now_check := k_now_check env; k_reply := k_reply env;
     k_now_update := k_now_update env; k_disk_ok := ok |}.

Definition is_file_write (e : effect) : bool :=
  match e with
  | WriteFile _ _ => true
  | _ => false
  end.

Definition file_writes (t : list effect) : list effect :=
  List.filter is_file_write t.

End Outside.

(** ** [cryptex/exchange/client.py]: the requests of the endpoints

    What each endpoint method hands to [_request]; the HTTP exchange itself
    (signing, transport, the mapping of [httpx] errors) stays outside. *)

Module Client.

(** A value of the query string. *)
Inductive param :=
| PStr (s : string)
| PInt (n : Z)
| PFloat (x : float).

Record request := {
  method : string;
  endpoint : string;
  params : gmap string param;
  signed : bool
}.

(** Truth value of an [int | None]. *)
Definition time_truthy (t : option Z) : bool :=
  match t with
  | Some n => negb (n =? 0)
  | None => false
  end.

(** [BinanceClient.ping] *)
Definition ping_request : request :=
  {| method := "GET"; endpoint := "/v3/ping"; params := ∅; signed := false |}.

(** [BinanceClient.get_klines] *)
Definition get_klines_request (symbol interval : string) (limit : Z)
  (start_time end_time : option Z) : request :=
  let params : gmap string param :=
    <["limit" := PInt limit]>
      (<["interval" := PStr interval]> (<["symbol" := PStr symbol]> ∅)) in
  let params :=
    match start_time with
    | Some t => if time_truthy start_time then <["startTime" := PInt t]> params else params
    | None => params
    end in
  let params :=
    match end_time with
    | Some t => if time_truthy end_time then <["endTime" := PInt t]> params else params
    | None => params
    end in
  {| method := "GET"; endpoint := "/v3/klines"; params := params; signed := false |}.

(** [BinanceClient.get_ticker_price] *)
Definition get_ticker_price_request (symbol : string) : request :=
  {| method := "GET"; endpoint := "/v3/ticker/price";
     params := <["symbol" := PStr symbol]> ∅; signed := false |}.

(** [BinanceClient.get_account] *)
Definition get_account_request : request :=
  {| method := "GET"; endpoint := "/v3/account"; params := ∅; signed := true |}.

(** [BinanceClient.get_open_orders] *)
Definition get_open_orders_request (symbol : string) : request :=
  {| method := "GET"; endpoint := "/v3/openOrders";
     params := <["symbol" := PStr symbol]> ∅; signed := true |}.

(** [BinanceClient.place_market_order] *)
Definition place_market_order_request (symbol side : string) (quantity : float)
  (quote_order_qty : option float) : request :=
  let params : gmap string param :=
    <["type" := PStr "MARKET"]>
      (<["side" := PStr side]> (<["symbol" := PStr symbol]> ∅)) in
  let params :=
    match quote_order_qty with
    | Some q => <["quoteOrderQty" := PFloat q]> params
    | None => <["quantity" := PFloat quantity]> params
    end in
  {| method := "POST"; endpoint := "/v3/order"; params := params; signed := true |}.

(** The request behind each call that the core makes: [get_klines] is
    called with symbol, interval and limit, [place_market_order] with symbol,
    side and quantity. *)
Definition request_of (call : effect) : option request :=
  match call with
  | CallGetKlines symbol interval limit =>
      Some (get_klines_request symbol interval limit None None)
  | CallGetTickerPrice symbol => Some (get_ticker_price_request symbol)
  | CallGetOpenOrders symbol => Some (get_open_orders_request symbol)
  | CallPlaceMarketOrder symbol side quantity =>
      Some (place_market_order_request symbol side quantity None)
  | WriteFile _ _ => None
  end.

End Client.

(** ** [MarketDataService.get_klines_and_ticker]

    The two getters run as two tasks of the event loop, created in the order
    klines, ticker, and awaited with [asyncio.gather].  A task runs without
    interruption up to its next await: [get_klines] awaits the reply of the
    exchange and then the thread that writes the file, [get_ticker_price]
    awaits the reply of the exchange.  [gather] returns the pair of the two
    values when both tasks have returned, and raises the first exception that
    a task raises; the model does not follow the other task past that
    point. *)

Module Gather.
Import MarketData.

Inductive klines_task :=
| KCreated
| KAwaitingReply
| KWritingFile (cs : list Candle)
| KFinished (r : result (list Candle)).

Inductive ticker_task :=
| TCreated
| TAwaitingReply
| TFinished (r : result float).

Inductive turn := KlinesTurn | TickerTurn.

Record system := {
  g_service : MarketDataService;
  g_klines : klines_task;
  g_ticker : ticker_task;
  g_raised : option exn;
  g_log : list effect
}.

Definition start (svc : MarketDataService) : system :=
  {| g_service := svc; g_klines := KCreated; g_ticker := TCreated;
     g_raised := None; g_log := [] |}.

(** Every task gets the turns it needs to return. *)
Definition completion : list turn :=
  [KlinesTurn; KlinesTurn; KlinesTurn; TickerTurn; TickerTurn].

(** What [gather] hands back, once it does. *)
Definition gathered (s : system) : option (result (list Candle * float)) :=
  match g_raised s with
  | Some e => Some (Raise e)
  | None =>
      match g_klines s, g_ticker s with
      | KFinished rk, TFinished rt => Some (cs ← rk; p ← rt; Ok (cs, p))
      | _, _ => None
      end
  end.

Definition raised {A} (r : result A) : option exn :=
  match r with
  | Ok _ => None
  | Raise e => Some e
  end.

Section Tasks.

Variable int_of_str : string -> result Z.
Variable float_of_str : string -> result float.

Variable limit : Z.
Variable force_refresh : bool.
Variable kenv : KlinesEnv.
Variable tenv : TickerEnv.

(** [get_klines] up to its next await. *)
Definition resume_klines (t : klines_task) (svc : MarketDataService)
  : klines_task * MarketDataService * list effect :=
  match t with
  | KCreated =>
      if klines_hit svc force_refresh (k_now_check kenv)
      then (KFinished (Ok (candles (_cache svc))), svc, [])
      else (KAwaitingReply, svc,
            [CallGetKlines (symbol svc) (timeframe svc) limit])
  | KAwaitingReply =>
      match k_reply kenv with
      | ClientError msg resp =>
          (KFinished (Raise (BinanceClientError msg resp)), svc, [])
      | Answer raw =>
          match decode_all int_of_str float_of_str raw with
          | Raise e => (KFinished (Raise e), svc, [])
          | Ok cs =>
              (KWritingFile cs,
               with_cache svc (update_candles (_cache svc) cs (k_now_update kenv)),
               [])
          end
      end
  | KWritingFile cs =>
      (KFinished (Ok cs), svc,
       if k_disk_ok kenv then [WriteFile (candles_file svc) cs] else [])
  | KFinished r => (KFinished r, svc, [])
  end.

(** [get_ticker_price] up to its next await. *)
Definition resume_ticker (t : ticker_task) (svc : MarketDataService)
  : ticker_task * MarketDataService * list effect :=
  match t with
  | TCreated =>
      match ticker_price (_cache svc) with
      | Some cached =>
          if ticker_hit svc force_refresh (t_now_check tenv)
          then (TFinished (Ok cached), svc, [])
          else (TAwaitingReply, svc, [CallGetTickerPrice (symbol svc)])
      | None => (TAwaitingReply, svc, [CallGetTickerPrice (symbol svc)])
      end
  | TAwaitingReply =>
      match t_reply tenv with
      | ClientError msg resp =>
          (TFinished (Raise (BinanceClientError msg resp)), svc, [])
      | Answer data =>
          match v ← getitem data "price"; py_float float_of_str v with
          | Raise e => (TFinished (Raise e), svc, [])
          | Ok price =>
              (TFinished (Ok price),
               with_cache svc (update_ticker (_cache svc) price (t_now_update tenv)),
               [])
          end
      end
  | TFinished r => (TFinished r, svc, [])
  end.

(** The event loop gives one task its turn; nothing is followed once
    [gather] has raised. *)
Definition step (s : system) (w : turn) : system :=
  match g_raised s with
  | Some _ => s
  | None =>
      match w with
      | KlinesTurn =>
          let '(t, svc, eff) := resume_klines (g_klines s) (g_service s) in
          {| g_service := svc; g_klines := t; g_ticker := g_ticker s;
             g_raised := match t with KFinished r => raised r | _ => None end;
             g_log := g_log s ++ eff |}
      | TickerTurn =>
          let '(t, svc, eff) := resume_ticker (g_ticker s) (g_service s) in
          {| g_service := svc; g_klines := g_klines s; g_ticker := t;
             g_raised := match t with TFinished r => raised r | _ => None end;
             g_log := g_log s ++ eff |}
      end
  end.

Definition run (schedule : list turn) (s : system) : system :=
  fold_left step schedule s.

(** [MarketDataService.get_klines_and_ticker]: the tasks take their turns in
    the order of [schedule], and then every turn they still need.  [None]
    stands for a [gather] that never returns. *)
Definition get_klines_and_ticker (schedule : list turn) (svc : MarketDataService)
  : option (result (list Candle * float)) * MarketDataService * list effect :=
  let s := run (schedule ++ completion) (start svc) in
  (gathered s, g_service s, g_log s).

(** What the two replies decode to. *)
Definition klines_of_reply : result (list Candle) :=
  raw ← outcome_of_reply (k_reply kenv); decode_all int_of_str float_of_str raw.

Definition price_of_reply : result float :=
  data ← outcome_of_reply (t_reply tenv);
  v ← getitem data "price"; py_float float_of_str v.

(** Invariants of a run, for the properties below.  On a cache that serves
    both getters, nothing is sent and nothing changes. *)
Definition served_from_cache (svc : MarketDataService) (p : float) (s : system)
  : Prop :=
  g_service s = svc /\ g_log s = [] /\ g_raised s = None /\
  (g_klines s = KCreated \/ g_klines s = KFinished (Ok (candles (_cache svc)))) /\
  (g_ticker s = TCreated \/ g_ticker s = TFinished (Ok p)).

(** On a cache that serves neither getter, each task ends in what its reply
    decodes to, and what it returns is what it cached. *)
Definition follows_replies (s : system) : Prop :=
  (g_klines s = KCreated -> candles (_cache (g_service s)) = []) /\
  (g_ticker s = TCreated ->
     price_truthy (ticker_price (_cache (g_service s))) = false) /\
  (forall cs, g_klines s = KWritingFile cs ->
     klines_of_reply = Ok cs /\ candles (_cache (g_service s)) = cs) /\
  (forall r, g_klines s = KFinished r ->
     r = klines_of_reply /\
     forall cs, r = Ok cs -> candles (_cache (g_service s)) = cs) /\
  (forall r, g_ticker s = TFinished r ->
     r = price_of_reply /\
     forall p, r = Ok p -> ticker_price (_cache (g_service s)) = Some p) /\
  (forall e, g_raised s = Some e ->
     klines_of_reply = Raise e \/ price_of_reply = Raise e).

End Tasks.

(** The turns that a task still needs to return. *)
Definition turns_left_klines (t : klines_task) : nat :=
  match t with
  | KCreated => 3
  | KAwaitingReply => 2
  | KWritingFile _ => 1
  | KFinished _ => 0
  end.

Definition turns_left_ticker (t : ticker_task) : nat :=
  match t with
  | TCreated => 2
  | TAwaitingReply => 1
  | TFinished _ => 0
  end.

Definition settles_within (n m : nat) (s : system) : Prop :=
  g_raised s <> None \/
  ((turns_left_klines (g_klines s) <= n)%nat /\
   (turns_left_ticker (g_ticker s) <= m)%nat).

End Gather.

(** ** [cryptex/config.py] *)

Module Settings.

Record Config := {
  binance_api_key : string;
  binance_api_secret : string;
  binance_base_url : string;
  use_testnet : bool;
  symbol : string;
  timeframe : string;
  position_size : float;
  order_type : string;
  ma_period : Z;
  data_cache_ttl_seconds : Z;
  dry_run : bool
}.

(** [config.dry_run = b] *)
Definition with_dry_run (self : Config) (b : bool) : Config :=
  {| binance_api_key := binance_api_key self;
     binance_api_secret := binance_api_secret self;
     binance_base_url := binance_base_url self;
     use_testnet := use_testnet self;
     symbol := symbol self; timeframe := timeframe self;
     position_size := position_size self; order_type := order_type self;
     ma_period := ma_period self;
     data_cache_ttl_seconds := data_cache_ttl_seconds self;
     dry_run := b |}.

(** Truth value of a string: empty is false. *)
Definition str_truthy (s : string) : bool :=
  match s with
  | EmptyString => false
  | String _ _ => true
  end.

(** [Config.validate] *)
Definition validate (self : Config) : list string :=
  if negb (dry_run self)
  then
    (if negb (str_truthy (binance_api_key self))
     then ["BINANCE_API_KEY is required (set DRY_RUN=true to simulate)"]
     else [])
    ++ (if negb (str_truthy (binance_api_secret self))
        then ["BINANCE_API_SECRET is required (set DRY_RUN=true to simulate)"]
        else [])
  else [].

End Settings.

(** ** [cryptex/cli.py] *)

Module Cli.
Import MarketData Execution Gather.

(** What a run of the pipeline does, in order: the ping, the calls and file
    writes of the core, and the closing of the client. *)
Inductive pipeline_event :=
| Ping
| Core (e : effect)
| CloseClient.

(** [BinanceClient.ping]: [True], or the error of [_request] raised again
    with its message and without its response. *)
Definition ping (r : reply MarketData.dict) : result bool :=
  match r with
  | Answer _ => Ok true
  | ClientError msg _ => Raise (BinanceClientError msg None)
  end.

(** What the outside holds for one run: the reply to the ping, what it holds
    for the two getters and the order in which their tasks take turns, and
    what it holds for [execute]. *)
Record PipelineEnv := {
  ping_reply : reply MarketData.dict;
  p_klines : KlinesEnv;
  p_ticker : TickerEnv;
  p_schedule : list turn;
  p_exec : ExecEnv
}.

Section Pipeline.

Variable py_sum : list float -> float.
Variable int_of_str : string -> result Z.
Variable float_of_str : string -> result float.

(** The body of the [try] of [run_pipeline]: the exit code or the exception,
    and the events; [None] stands for a run that never returns.  (The
    credentials and the URL of the client only reach the transport; the log
    lines are left out.) *)
Definition pipeline_body (config : Settings.Config) (dry_run : bool)
  (env : PipelineEnv) : option (result Z) * list pipeline_event :=
  match ping (ping_reply env) with
  | Raise e => (Some (Raise e), [Ping])
  | Ok connected =>
      if negb connected then (Some (Ok 1), [Ping])
      else
        let market_data :=
          new_service (Settings.symbol config) (Settings.timeframe config)
            (Settings.data_cache_ttl_seconds config) None in
        let '(both, _, t) :=
          get_klines_and_ticker int_of_str float_of_str 100 false
            (p_klines env) (p_ticker env) (p_schedule env) market_data in
        let fetched := Ping :: map Core t in
        match both with
        | None => (None, fetched)
        | Some (Raise e) => (Some (Raise e), fetched)
        | Some (Ok (candles, price)) =>
            if negb (list_truthy candles) then (Some (Ok 1), fetched)
            else
              match
                strategy ← init (Settings.ma_period config);
                signal ← generate py_sum strategy candles;
                ma ← compute_ma py_sum strategy candles;
                Ok signal
              with
              | Raise e => (Some (Raise e), fetched)
              | Ok signal =>
                  if bool_decide (signal = HOLD) then (Some (Ok 0), fetched)
                  else if dry_run then (Some (Ok 0), fetched)
                  else
                    let order_manager :=
                      new_manager (Settings.symbol config)
                        (Settings.position_size config)
                        (Settings.order_type config) 60 in
                    let o := execute signal (p_exec env) order_manager in
                    match value_of o with
                    | Raise e => (Some (Raise e), fetched ++ map Core (trace_of o))
                    | Ok result => (Some (Ok 0), fetched ++ map Core (trace_of o))
                    end
              end
        end
  end.

(** [run_pipeline]: the body, and [finally] the client is closed. *)
Definition run_pipeline (config : Settings.Config) (dry_run : bool)
  (env : PipelineEnv) : option (result Z) * list pipeline_event :=
  match pipeline_body config dry_run env with
  | (None, events) => (None, events)
  | (Some r, events) => (Some r, events ++ [CloseClient])
  end.

(** The command [run]: the code of the [SystemExit] it raises, or the
    exception that escapes it.  [config] is the configuration as loaded. *)
Definition run (config : Settings.Config) (dry_run live : bool)
  (env : PipelineEnv) : option (result Z) * list pipeline_event :=
  let config :=
    if live then Settings.with_dry_run config false
    else if dry_run then Settings.with_dry_run config true
    else config in
  let errors := Settings.validate config in
  if list_truthy errors then (Some (Ok 1), [])
  else run_pipeline config (Settings.dry_run config) env.

End Pipeline.

(** The events that go to the exchange with a signature. *)
Definition is_signed_call (e : pipeline_event) : bool :=
  match e with
  | Core (CallGetOpenOrders _) => true
  | Core (CallPlaceMarketOrder _ _ _) => true
  | _ => false
  end.

Definition is_order (e : pipeline_event) : bool :=
  match e with
  | Core (CallPlaceMarketOrder _ _ _) => true
  | _ => false
  end.

End Cli.

(** ** Sequences of [execute] calls on one manager *)

Module Trading.
Import Execution.

(** Serve the calls one after the other; the outcomes are listed in order,
    the effects are appended. *)
Fixpoint run_calls (calls : list (Signal * ExecEnv)) (om : OrderManager)
  : list (result OrderResult) * OrderManager * list effect :=
  match calls with
  | [] => ([], om, [])
  | (signal, env) :: rest =>
      let o := execute signal env om in
      let '(values, om2, t2) := run_calls rest (state_of o) in
      (value_of o :: values, om2, trace_of o ++ t2)
  end.

(** The clock reading recorded by the latest call of the run whose order on
    [side] the exchange accepted, if there is one: bookkeeping about a run. *)
Fixpoint last_accepted (side : string) (calls : list (Signal * ExecEnv))
  (om : OrderManager) : option Q :=
  match calls with
  | [] => None
  | (signal, env) :: rest =>
      let o := execute signal env om in
      match last_accepted side rest (state_of o) with
      | Some t => Some t
      | None =>
          if submission_succeeded env o && bool_decide (side_of signal = side)
          then Some (now_record env)
          else None
      end
  end.

End Trading.

(** ** Data for the pipeline and the overlapping getters *)

Module Scenarios.
Import MarketData Execution Gather Cli Examples.

(** The defaults of [Config], with a moving average over two candles. *)
Definition config0 : Settings.Config :=
  {| Settings.binance_api_key := ""; Settings.binance_api_secret := "";
     Settings.binance_base_url := "https://testnet.binance.vision/api";
     Settings.use_testnet := true; Settings.symbol := "BTCUSDT";
     Settings.timeframe := "5m"; Settings.position_size := size_0_001;
     Settings.order_type := "MARKET"; Settings.ma_period := 2;
     Settings.data_cache_ttl_seconds := 30; Settings.dry_run := false |}.

(** The exchange answers the ping, the klines and the quote, holds no open
    order and accepts the order; the ticker task starts while the klines
    task awaits its reply. *)
Definition pipeline_env0 : PipelineEnv :=
  {| ping_reply := Answer ∅;
     p_klines := klines_env 1000 two_klines;
     p_ticker := ticker_env 1000 quote_50100;
     p_schedule := [KlinesTurn; TickerTurn];
     p_exec := env_accept 1000 1 |}.

(** The exchange does not answer the ping. *)
Definition pipeline_env_no_ping : PipelineEnv :=
  {| ping_reply := ClientError "Request failed: " None;
     p_klines := klines_env 1000 two_klines;
     p_ticker := ticker_env 1000 quote_50100;
     p_schedule := [KlinesTurn; TickerTurn];
     p_exec := env_accept 1000 1 |}.

(** A candle whose close is NaN. *)
Definition nan_candle : Candle :=
  {| open_time := 0; open := float_of_int 10; high := float_of_int 10;
     low := float_of_int 10; close := S754_nan; volume := float_of_int 100 |}.

Definition strategy2 : SimpleSignalStrategy := {| ma_period := 2 |}.

(** A quote that lacks its price. *)
Definition quote_without_price : MarketData.dict := {[ "symbol" := JStr "BTCUSDT" ]}.

(** A kline with five fields. *)
Definition short_kline : list json :=
  [JInt 1000000; JStr "50000"; JStr "50100"; JStr "49900"; JStr "50050"].

(** The six fields of a kline that are read. *)
Definition kline6 : list json :=
  [JInt 1000000; JStr "50000"; JStr "50100"; JStr "49900"; JStr "50050"; JStr "100"].

(** The six fields that follow them in a kline of the exchange. *)
Definition kline_tail : list json :=
  [JInt 1000059; JStr "5000000"; JInt 42; JStr "50"; JStr "2500000"; JStr "0"].

(** A service with a negative TTL that has fetched its candles at 1000. *)
Definition svc_negative_ttl : MarketDataService :=
  state_of (get_klines decimal_int_of_str decimal_float_of_str 100 false
              (klines_env 1000 two_klines)
              (new_service "BTCUSDT" "5m" (-1) None)).

(** The service after the quote was fetched at 1000. *)
Definition svc_quoted : MarketDataService :=
  state_of (get_ticker_price decimal_float_of_str false
              (ticker_env 1000 quote_50100) svc0).

(** The service after both entries were fetched at 1000. *)
Definition svc_fetched : MarketDataService :=
  state_of (get_klines decimal_int_of_str decimal_float_of_str 100 false
              (klines_env 1000 two_klines) svc_quoted).

(** A [get_klines] call at time [t] whose file cannot be written. *)
Definition klines_env_disk_full (t : Z) (raw : list (list json)) : KlinesEnv :=
  {| k_now_check := inject_Z t; k_reply := Answer raw;
     k_now_update := inject_Z t; k_disk_ok := false |}.

End Scenarios.

(** * Properties *)

Import Examples.

Import MarketData Execution Async Session.

(** ** Unfolding computations *)

#[local] Ltac unfold_M :=
  cbv beta iota delta [mbind mret M_bind M_ret result_bind result_ret
    await_client try_except_BinanceClientError
    get_self set_self modify_self asks emit lift outcome_of_reply
    value_of state_of trace_of fst snd app] in *.

Lemma Qltb_lt (a b : Q) : Qltb a b = true <-> (a < b)%Q.
Proof.
  unfold Qltb. rewrite negb_true_iff, <- not_true_iff_false, Qle_bool_iff.
  split; [apply Qnot_le_lt | apply Qlt_not_le].
Qed.

Lemma Qltb_ge (a b : Q) : Qltb a b = false <-> (b <= a)%Q.
Proof.
  unfold Qltb. by rewrite negb_false_iff, Qle_bool_iff.
Qed.

Lemma string_append_assoc (a b c : string) : (a +:+ b) +:+ c = a +:+ b +:+ c.
Proof.
  induction a as [|x a IH]; [done|].
  change (String x ((a +:+ b) +:+ c) = String x (a +:+ b +:+ c)).
  by rewrite IH.
Qed.

(** ** The cases of the test suite *)

Example generate_long :
  generate sum_left {| ma_period := 3 |} (map candle_closing_at [10; 20; 30; 50])
  = Ok LONG.
Proof. vm_compute. reflexivity. Qed.

Example generate_short :
  generate sum_left {| ma_period := 3 |} (map candle_closing_at [50; 40; 30; 10])
  = Ok SHORT.
Proof. vm_compute. reflexivity. Qed.

Example generate_hold_on_short_history :
  generate sum_left {| ma_period := 2 |} [candle_closing_at 10] = Ok HOLD.
Proof. vm_compute. reflexivity. Qed.

Example compute_ma_uses_last_candles :
  compute_ma sum_left {| ma_period := 2 |} (map candle_closing_at [100; 20; 30])
  = Ok (Some (float_of_int 25)).
Proof. vm_compute. reflexivity. Qed.

Example init_rejects_period_one :
  init 1 = Raise (ValueError "ma_period must be at least 2").
Proof. reflexivity. Qed.

Example from_binance_ignores_extra_fields :
  close <$> match from_binance decimal_int_of_str decimal_float_of_str
                    [JInt 1000000; JStr "50000"; JStr "50100"; JStr "49900";
                     JStr "50050"; JStr "100"; JStr "extra"] with
            | Ok c => Some c
            | Raise _ => None
            end
  = Some (float_of_int 50050).
Proof. vm_compute. reflexivity. Qed.

Example execute_hold_calls_nothing :
  execute HOLD (env_accept 1000 12345) om0 = (Ok hold_result, om0, []).
Proof. reflexivity. Qed.

Example execute_long_places_buy :
  trace_of (execute LONG (env_accept 1000 12345) om0)
  = [CallGetOpenOrders "BTCUSDT"; CallPlaceMarketOrder "BTCUSDT" "BUY" size_0_001]
  /\ order_id <$> match value_of (execute LONG (env_accept 1000 12345) om0) with
                  | Ok r => Some r
                  | Raise _ => None
                  end = Some (Some "12345").
Proof. vm_compute. by split. Qed.

Example execute_reports_rejection :
  message <$> match value_of (execute LONG (env_reject 1000) om0) with
              | Ok r => Some r
              | Raise _ => None
              end = Some "Insufficient balance".
Proof. vm_compute. reflexivity. Qed.

(** ** The signal engine *)

Section FloatOrder.

(** Swapping the operands of a float comparison mirrors its outcome. *)
Lemma SFcompare_swap (a b : float) :
  SFcompare b a = CompOpp <$> SFcompare a b.
Proof.
  destruct a as [sa|sa| |sa ma ea], b as [sb|sb| |sb mb eb]; simpl;
    try reflexivity; try (destruct sa; reflexivity); try (destruct sb; reflexivity);
    try (destruct sa, sb; reflexivity).
  destruct sa, sb; simpl; try reflexivity;
    rewrite (Z.compare_antisym ea eb); destruct (ea ?= eb); simpl; try reflexivity;
    repeat f_equal; symmetry; apply (Pos.compare_cont_antisym ma mb Eq).
Qed.

Lemma flt_not_fgt (a b : float) : flt a b = true -> fgt a b = false.
Proof.
  unfold fgt, flt, SFltb. rewrite (SFcompare_swap a b).
  destruct (SFcompare a b) as [[]|]; simpl; congruence.
Qed.

Lemma feq_neither (a b : float) :
  feq a b = true -> fgt a b = false /\ flt a b = false.
Proof.
  unfold feq, fgt, flt, SFltb, SFeqb. rewrite (SFcompare_swap a b).
  destruct (SFcompare a b) as [[]|]; simpl; split; congruence.
Qed.

End FloatOrder.

Section Slices.

Context {A : Type}.

(** [l[-n:]] is the last [n] elements when there are that many. *)
Lemma slice_from_last_n (n : Z) (l : list A) :
  0 < n <= Z.of_nat (length l) -> slice_from (- n) l = last_n (Z.to_nat n) l.
Proof.
  intros Hn. unfold slice_from, last_n.
  destruct (Z.ltb_spec (- n) 0); [|lia].
  rewrite Z.max_l by lia.
  rewrite firstn_rev, rev_involutive. f_equal. lia.
Qed.

Lemma last_n_length (n : nat) (l : list A) :
  (n <= length l)%nat -> length (last_n n l) = n.
Proof.
  intros Hn. unfold last_n. rewrite length_rev, firstn_length_le; [done|].
  by rewrite length_rev.
Qed.

(** [l[-1]] is the last element. *)
Lemma index_minus_one (l : list A) (x : A) :
  last l = Some x -> index l (-1) = Ok x.
Proof.
  intros Hl. unfold index.
  assert (Hlen : (0 < length l)%nat) by (destruct l; [done | simpl; lia]).
  destruct (Z.ltb_spec (-1) 0); [|lia].
  destruct (Z.ltb_spec (-1 + Z.of_nat (length l)) 0); [lia|].
  destruct (Z.leb_spec (Z.of_nat (length l)) (-1 + Z.of_nat (length l))); [lia|].
  simpl. rewrite last_lookup in Hl.
  replace (Z.to_nat (-1 + Z.of_nat (length l))) with (pred (length l)) by lia.
  by rewrite Hl.
Qed.

End Slices.

Section SignalEngine.

Variable py_sum : list float -> float.

Lemma compute_ma_short (self : SimpleSignalStrategy) (candles : list Candle) :
  Z.of_nat (length candles) < ma_period self ->
  compute_ma py_sum self candles = Ok None.
Proof.
  intros Hlen. unfold compute_ma.
  by destruct (Z.ltb_spec (Z.of_nat (length candles)) (ma_period self)); [|lia].
Qed.

(** With enough history the code computes the mean of the specification. *)
Lemma compute_ma_mean (self : SimpleSignalStrategy) (candles : list Candle) :
  2 <= ma_period self <= Z.of_nat (length candles) ->
  compute_ma py_sum self candles
  = Ok (Some (mean_close_of_last py_sum (ma_period self) candles)).
Proof.
  intros Hp. unfold compute_ma, mean_close_of_last.
  destruct (Z.ltb_spec (Z.of_nat (length candles)) (ma_period self)); [lia|].
  rewrite slice_from_last_n by lia.
  rewrite length_map, last_n_length by lia.
  rewrite Z2Nat.id by lia. unfold truediv_int.
  by destruct (Z.eqb_spec (ma_period self) 0); [lia|].
Qed.

(** C4. For every candle sequence and every configured period of at least
    2: [generate] returns HOLD when the sequence is empty or shorter than the
    period; otherwise, with [ma] the arithmetic mean of the closes of the
    last [period] candles and [c] the final candle, it returns LONG if
    [close c > ma], SHORT if [close c < ma] and HOLD if [close c == ma]
    (float comparisons). *)
Theorem generate_follows_moving_average (period : Z) (candles : list Candle) :
  2 <= period ->
  exists self : SimpleSignalStrategy,
    init period = Ok self /\ ma_period self = period /\
    (Z.of_nat (length candles) < period ->
       generate py_sum self candles = Ok HOLD) /\
    (period <= Z.of_nat (length candles) ->
       exists c : Candle,
         last candles = Some c /\
         let ma := mean_close_of_last py_sum period candles in
         (fgt (close c) ma = true -> generate py_sum self candles = Ok LONG) /\
         (flt (close c) ma = true -> generate py_sum self candles = Ok SHORT) /\
         (feq (close c) ma = true -> generate py_sum self candles = Ok HOLD)).
Proof.
  intros Hp. exists {| ma_period := period |}. split; [|split; [done|split]].
  - unfold init. by destruct (Z.ltb_spec period 2); [lia|].
  - intros Hshort. unfold generate.
    destruct candles as [|c0 rest]; [done|].
    rewrite compute_ma_short by done. done.
  - intros Hlong.
    destruct (last candles) as [c|] eqn:Hlast; cycle 1.
    { apply last_None in Hlast. subst candles. simpl in Hlong. lia. }
    exists c. split; [done|]. intros ma.
    assert (Hgen : generate py_sum {| ma_period := period |} candles
                   = if fgt (close c) ma then Ok LONG
                     else if flt (close c) ma then Ok SHORT else Ok HOLD).
    { unfold generate. destruct candles as [|c0 rest]; [done|].
      rewrite compute_ma_mean by (cbn [ma_period]; lia).
      cbn [ma_period list_truthy negb mbind result_bind].
      rewrite (index_minus_one _ _ Hlast). done. }
    rewrite Hgen. repeat split.
    + by intros ->.
    + intros Hlt. by rewrite (flt_not_fgt _ _ Hlt), Hlt.
    + intros Heq. by destruct (feq_neither _ _ Heq) as [-> ->].
Qed.

End SignalEngine.

(** Closes 10, 30, 20 with period 3: the mean is 20, a tie. *)
Lemma generate_follows_moving_average_witness :
  exists self : SimpleSignalStrategy,
    init 3 = Ok self /\ ma_period self = 3 /\
    generate sum_left self (map candle_closing_at [10; 30; 20]) = Ok HOLD.
Proof.
  assert (Hp : 2 <= 3) by lia.
  destruct (generate_follows_moving_average sum_left 3
              (map candle_closing_at [10; 30; 20]) Hp)
    as (self & Hinit & Hper & _ & Hlong).
  exists self. split; [done|]. split; [done|].
  assert (Hlen : 3 <= Z.of_nat (length (map candle_closing_at [10; 30; 20])))
    by (simpl; lia).
  destruct (Hlong Hlen) as (c & Hc & _ & _ & Hhold).
  apply Hhold. injection Hc as <-. vm_compute. reflexivity.
Defined.


(** ** The order guard *)

Section OrderGuard.

(** [execute], exit by exit. *)
Lemma execute_cases (signal : Signal) (env : ExecEnv) (om : OrderManager) :
  execute signal env om =
    if bool_decide (signal = HOLD) then (Ok hold_result, om, [])
    else
      let side := side_of signal in
      if reports_open_orders env
      then (Ok (skipped_open_orders side (symbol om)), om,
            [CallGetOpenOrders (symbol om)])
      else if cooling_down om side (now_cooldown env)
      then (Ok (skipped_cooldown side (order_cooldown_seconds om)), om,
            [CallGetOpenOrders (symbol om)])
      else
        match place_reply env with
        | Answer result =>
            (Ok (placed result),
             with_last_order_time om
               (<[side := now_record env]> (_last_order_time om)),
             [CallGetOpenOrders (symbol om);
              CallPlaceMarketOrder (symbol om) side (position_size om)])
        | ClientError msg resp =>
            (Ok (rejected msg resp), om,
             [CallGetOpenOrders (symbol om);
              CallPlaceMarketOrder (symbol om) side (position_size om)])
        end.
Proof.
  unfold execute, has_open_orders, _is_on_cooldown, _record_order,
    reports_open_orders, cooling_down.
  case_bool_decide; [reflexivity|]. unfold_M.
  destruct (open_orders_reply env) as [orders|msg resp]; [|reflexivity].
  destruct (0 <? Z.of_nat (length orders)); [reflexivity|].
  destruct (Qltb _ _); [reflexivity|].
  destruct (place_reply env) as [result|msg resp]; reflexivity.
Qed.

Lemma cooldown_message_mentions (side : string) (seconds : Z) :
  mentions "cooldown" (cooldown_message side seconds).
Proof.
  exists ("Skipping " +:+ side +:+ ": "), (" active (" +:+ str_of_int seconds +:+ "s)").
  unfold cooldown_message. by rewrite !string_append_assoc.
Qed.

(** After a recorded order on a side, a reading of the clock less than the
    cooldown later finds the side cooling down. *)
Lemma cooling_down_after_record (om : OrderManager) (side : string) (t now : Q) :
  (now - t < inject_Z (order_cooldown_seconds om))%Q ->
  cooling_down (with_last_order_time om (<[side := t]> (_last_order_time om)))
    side now = true.
Proof.
  intros Hlt. unfold cooling_down. cbn [_last_order_time order_cooldown_seconds
    with_last_order_time]. rewrite lookup_insert_eq. cbn [default].
  by apply Qltb_lt.
Qed.

(** A non-HOLD call that reports success went through both gates and had
    its order accepted. *)
Lemma execute_success_inv
  (signal : Signal) (env : ExecEnv) (om : OrderManager) (r : OrderResult) :
  signal <> HOLD ->
  value_of (execute signal env om) = Ok r ->
  success r = true ->
  exists result : dict,
    place_reply env = Answer result /\
    reports_open_orders env = false /\
    cooling_down om (side_of signal) (now_cooldown env) = false /\
    execute signal env om
    = (Ok (placed result),
       with_last_order_time om
         (<[side_of signal := now_record env]> (_last_order_time om)),
       [CallGetOpenOrders (symbol om);
        CallPlaceMarketOrder (symbol om) (side_of signal) (position_size om)]).
Proof.
  intros Hsig Hr Hok. rewrite execute_cases in Hr |- *.
  rewrite bool_decide_eq_false_2 in Hr |- * by done. cbn zeta in Hr |- *.
  destruct (reports_open_orders env);
    [cbn in Hr; injection Hr as <-; discriminate Hok|].
  destruct (cooling_down om (side_of signal) (now_cooldown env));
    [cbn in Hr; injection Hr as <-; discriminate Hok|].
  destruct (place_reply env) as [result|msg resp];
    [|cbn in Hr; injection Hr as <-; discriminate Hok].
  by exists result.
Qed.

(** C1. For either side: when an [execute] call with a non-HOLD signal
    submits an order successfully, recorded at time [now_record env1], a
    second call with the same signal whose clock reading is less than
    [order_cooldown_seconds] later, and for which the exchange reports no
    open orders, submits nothing and returns a failed result whose message
    mentions the cooldown; over the two calls exactly one order is
    submitted. *)
Theorem second_call_within_cooldown_is_skipped
  (signal : Signal) (env1 env2 : ExecEnv) (om : OrderManager) (r1 : OrderResult) :
  signal <> HOLD ->
  value_of (execute signal env1 om) = Ok r1 ->
  success r1 = true ->
  open_orders_reply env2 = Answer [] ->
  (now_cooldown env2 - now_record env1 < inject_Z (order_cooldown_seconds om))%Q ->
  let o1 := execute signal env1 om in
  let o2 := execute signal env2 (state_of o1) in
  exists r2 : OrderResult,
    value_of o2 = Ok r2 /\ success r2 = false /\
    mentions "cooldown" (message r2) /\
    submissions (trace_of o2) = [] /\
    submissions (trace_of o1 ++ trace_of o2)
    = [CallPlaceMarketOrder (symbol om) (side_of signal) (position_size om)].
Proof.
  intros Hsig Hr1 Hok Hnone Hwin o1 o2. subst o1 o2.
  destruct (execute_success_inv signal env1 om r1 Hsig Hr1 Hok)
    as (result & _ & _ & _ & ->).
  cbn [state_of fst snd trace_of]. rewrite execute_cases.
  rewrite bool_decide_eq_false_2 by done. cbn zeta.
  assert (Hrep : reports_open_orders env2 = false)
    by (unfold reports_open_orders; by rewrite Hnone).
  rewrite Hrep, cooling_down_after_record by done.
  eexists. split; [reflexivity|]. split; [reflexivity|].
  split; [apply cooldown_message_mentions|]. split; reflexivity.
Qed.

(** C5. For a non-HOLD signal, when the open-orders query fails with the
    client's error, [execute] does not call the submission endpoint and
    returns a failed result; the whole outcome is the one it has when the
    exchange reports open orders. *)
Theorem failed_open_orders_query_blocks_submission
  (signal : Signal) (env : ExecEnv) (om : OrderManager)
  (msg : string) (resp : option HttpResponse) :
  signal <> HOLD ->
  open_orders_reply env = ClientError msg resp ->
  let o := execute signal env om in
  (exists r : OrderResult, value_of o = Ok r /\ success r = false) /\
  submissions (trace_of o) = [] /\
  forall orders : list dict,
    orders <> [] ->
    execute signal (with_open_orders_reply env (Answer orders)) om = o.
Proof.
  intros Hsig Herr o. subst o. rewrite execute_cases.
  rewrite bool_decide_eq_false_2 by done. cbn zeta.
  assert (Hrep : reports_open_orders env = true)
    by (unfold reports_open_orders; by rewrite Herr).
  rewrite Hrep.
  split; [by eexists|]. split; [done|].
  intros orders Hne. rewrite execute_cases.
  rewrite bool_decide_eq_false_2 by done. cbn zeta.
  unfold reports_open_orders. cbn [open_orders_reply with_open_orders_reply].
  destruct orders as [|x rest]; [done|]. reflexivity.
Qed.

(** C6. The cooldown timestamp of a side is written exactly when an order
    submission on that side succeeds, and then it is the clock reading of
    [_record_order]; on every other exit (HOLD, open orders, failed query,
    cooldown, rejection) the manager is unchanged.  So after a rejected
    submission a following call for the same side, at the same or a later
    clock reading and with no open orders, passes the cooldown gate and
    reaches the exchange. *)
Theorem cooldown_written_only_on_success
  (signal : Signal) (env : ExecEnv) (om : OrderManager) :
  let o := execute signal env om in
  (submission_succeeded env o = true ->
     _last_order_time (state_of o)
     = <[side_of signal := now_record env]> (_last_order_time om)) /\
  (submission_succeeded env o = false -> state_of o = om) /\
  (forall r : OrderResult,
     value_of o = Ok r -> success r = false \/ signal = HOLD -> state_of o = om) /\
  (submission_rejected env o = true ->
     forall env2 : ExecEnv,
       open_orders_reply env2 = Answer [] ->
       (now_cooldown env <= now_cooldown env2)%Q ->
       cooling_down (state_of o) (side_of signal) (now_cooldown env2) = false /\
       submissions (trace_of (execute signal env2 (state_of o)))
       = [CallPlaceMarketOrder (symbol om) (side_of signal) (position_size om)]).
Proof.
  intros o. subst o. rewrite execute_cases.
  unfold submission_succeeded, submission_rejected.
  case_bool_decide as Hsig; [by split_and!|].
  cbn zeta.
  destruct (reports_open_orders env); [by split_and!|].
  destruct (cooling_down om (side_of signal) (now_cooldown env)) eqn:Hcool;
    [by split_and!|].
  destruct (place_reply env) as [result|msg resp]; split_and!; try done.
  - intros r [= <-] [Hr|Hr]; [discriminate Hr | done].
  - intros _ env2 Hnone Hle. cbn [state_of fst snd].
    assert (Hcool2 : cooling_down om (side_of signal) (now_cooldown env2) = false).
    { unfold cooling_down in Hcool |- *.
      apply Qltb_ge in Hcool. apply Qltb_ge. lra. }
    split; [done|].
    rewrite execute_cases, bool_decide_eq_false_2 by done. cbn zeta.
    assert (Hrep : reports_open_orders env2 = false)
      by (unfold reports_open_orders; by rewrite Hnone).
    rewrite Hrep, Hcool2. by destruct (place_reply env2).
Qed.

(** C10. Whatever the signal and whatever the exchange answers (no open
    orders, open orders, its typed error on the open-orders query or on the
    submission), [execute] returns an [OrderResult] and raises nothing; an
    error of the open-orders query gives the failed "open orders exist"
    result, and an error of the submission gives a failed result that carries
    the message and the response of the error. *)
Theorem execute_always_returns_a_result
  (signal : Signal) (env : ExecEnv) (om : OrderManager) :
  let o := execute signal env om in
  exists r : OrderResult,
    value_of o = Ok r /\
    (forall msg resp,
       signal <> HOLD ->
       open_orders_reply env = ClientError msg resp ->
       success r = false /\
       message r = open_orders_message (side_of signal) (symbol om)) /\
    (forall msg resp,
       submissions (trace_of o) <> [] ->
       place_reply env = ClientError msg resp ->
       success r = false /\ message r = msg /\ response r = Http <$> resp).
Proof.
  intros o. subst o. rewrite execute_cases.
  case_bool_decide as Hsig.
  { eexists. split; [reflexivity|]. split; [done|]. intros ? ? Hsub. by destruct Hsub. }
  cbn zeta. unfold reports_open_orders.
  destruct (open_orders_reply env) as [orders|msg0 resp0].
  - destruct (0 <? Z.of_nat (length orders)).
    { eexists. split; [reflexivity|]. split; [done|].
      intros ? ? Hsub. by destruct Hsub. }
    destruct (cooling_down om (side_of signal) (now_cooldown env)).
    { eexists. split; [reflexivity|]. split; [done|].
      intros ? ? Hsub. by destruct Hsub. }
    destruct (place_reply env) as [result|msg1 resp1].
    + eexists. split; [reflexivity|]. split; done.
    + eexists. split; [reflexivity|]. split; [done|].
      by intros msg resp _ [= <- <-].
  - eexists. split; [reflexivity|]. split; [done|].
    intros ? ? Hsub. by destruct Hsub.
Qed.

End OrderGuard.

(** Two LONG calls, 29 seconds apart, with a cooldown of 60 seconds. *)
Lemma second_call_within_cooldown_is_skipped_witness :
  exists r2 : OrderResult,
    value_of (execute LONG (env_accept 1030 12346)
                (state_of (execute LONG (env_accept 1000 12345) om0))) = Ok r2 /\
    success r2 = false /\
    mentions "cooldown" (message r2) /\
    submissions (trace_of (execute LONG (env_accept 1030 12346)
                  (state_of (execute LONG (env_accept 1000 12345) om0)))) = [] /\
    submissions (trace_of (execute LONG (env_accept 1000 12345) om0)
                 ++ trace_of (execute LONG (env_accept 1030 12346)
                      (state_of (execute LONG (env_accept 1000 12345) om0))))
    = [CallPlaceMarketOrder "BTCUSDT" "BUY" size_0_001].
Proof.
  apply (second_call_within_cooldown_is_skipped LONG
           (env_accept 1000 12345) (env_accept 1030 12346) om0
           (placed {[ "orderId" := JInt 12345 ]})).
  - discriminate.
  - vm_compute. reflexivity.
  - reflexivity.
  - reflexivity.
  - vm_compute. reflexivity.
Defined.

(** The open-orders query fails on a LONG signal. *)
Lemma failed_open_orders_query_blocks_submission_witness :
  (exists r : OrderResult,
     value_of (execute LONG (env_query_fails 1000) om0) = Ok r /\ success r = false) /\
  submissions (trace_of (execute LONG (env_query_fails 1000) om0)) = [] /\
  execute LONG (with_open_orders_reply (env_query_fails 1000) (Answer [open_order])) om0
  = execute LONG (env_query_fails 1000) om0.
Proof.
  destruct (failed_open_orders_query_blocks_submission LONG (env_query_fails 1000)
              om0 "API error" None) as (Hr & Hs & Hsame).
  - discriminate.
  - reflexivity.
  - split; [exact Hr|]. split; [exact Hs|]. apply Hsame. discriminate.
Defined.

(** A rejected SHORT order, retried one second later, reaches the exchange. *)
Lemma cooldown_written_only_on_success_witness :
  state_of (execute SHORT (env_reject 1000) om0) = om0 /\
  submissions (trace_of (execute SHORT (env_accept 1001 7)
                           (state_of (execute SHORT (env_reject 1000) om0))))
  = [CallPlaceMarketOrder "BTCUSDT" "SELL" size_0_001].
Proof.
  destruct (cooldown_written_only_on_success SHORT (env_reject 1000) om0)
    as (_ & Hsame & _ & Hretry).
  split.
  - apply Hsame. vm_compute. reflexivity.
  - apply Hretry.
    + vm_compute. reflexivity.
    + reflexivity.
    + vm_compute. discriminate.
Defined.

(** ** The market-data cache *)

Section Cache.

Variable int_of_str : string -> result Z.
Variable float_of_str : string -> result float.

(** [get_klines], exit by exit. *)
Lemma get_klines_cases (limit : Z) (force : bool) (env : KlinesEnv)
  (svc : MarketDataService) :
  get_klines int_of_str float_of_str limit force env svc =
    if klines_hit svc force (k_now_check env)
    then (Ok (candles (_cache svc)), svc, [])
    else
      let call := CallGetKlines (MarketData.symbol svc) (timeframe svc) limit in
      match k_reply env with
      | ClientError msg resp => (Raise (BinanceClientError msg resp), svc, [call])
      | Answer raw =>
          match decode_all int_of_str float_of_str raw with
          | Raise e => (Raise e, svc, [call])
          | Ok cs =>
              (Ok cs,
               with_cache svc (update_candles (_cache svc) cs (k_now_update env)),
               call :: (if k_disk_ok env then [WriteFile (candles_file svc) cs] else []))
          end
      end.
Proof.
  unfold get_klines, _persist_candles, klines_hit. unfold_M.
  destruct (_ && _ && _); [reflexivity|].
  destruct (k_reply env) as [raw|msg resp]; [|reflexivity].
  destruct (decode_all _ _ raw) as [cs|e]; [|reflexivity].
  destruct (k_disk_ok env); reflexivity.
Qed.

(** [get_ticker_price], served from the cache. *)
Lemma get_ticker_price_hit (force : bool) (env : TickerEnv)
  (svc : MarketDataService) :
  ticker_hit svc force (t_now_check env) = true ->
  exists p : float,
    ticker_price (_cache svc) = Some p /\
    get_ticker_price float_of_str force env svc = (Ok p, svc, []).
Proof.
  unfold get_ticker_price, ticker_hit, price_truthy. unfold_M.
  destruct (ticker_price (_cache svc)) as [p|]; [|by rewrite andb_false_r].
  intros ->. by exists p.
Qed.

(** [get_ticker_price], going to the exchange. *)
Lemma get_ticker_price_miss (force : bool) (env : TickerEnv)
  (svc : MarketDataService) :
  ticker_hit svc force (t_now_check env) = false ->
  get_ticker_price float_of_str force env svc =
    let call := CallGetTickerPrice (MarketData.symbol svc) in
    match t_reply env with
    | ClientError msg resp => (Raise (BinanceClientError msg resp), svc, [call])
    | Answer data =>
        match v ← getitem data "price"; py_float float_of_str v with
        | Raise e => (Raise e, svc, [call])
        | Ok price =>
            (Ok price,
             with_cache svc (update_ticker (_cache svc) price (t_now_update env)),
             [call])
        end
    end.
Proof.
  unfold get_ticker_price, ticker_hit, price_truthy. unfold_M.
  destruct (ticker_price (_cache svc)) as [p|].
  - intros ->.
    destruct (t_reply env) as [data|msg resp]; [|reflexivity].
    destruct (getitem data "price") as [v|e]; [|reflexivity].
    destruct (py_float float_of_str v); reflexivity.
  - intros _.
    destruct (t_reply env) as [data|msg resp]; [|reflexivity].
    destruct (getitem data "price") as [v|e]; [|reflexivity].
    destruct (py_float float_of_str v); reflexivity.
Qed.

(** A call goes to the exchange exactly when the cache does not serve it. *)
Lemma get_klines_fetched (limit : Z) (force : bool) (env : KlinesEnv)
  (svc : MarketDataService) :
  fetched (get_klines int_of_str float_of_str limit force env svc)
  = negb (klines_hit svc force (k_now_check env)).
Proof.
  rewrite get_klines_cases. unfold fetched.
  destruct (klines_hit svc force (k_now_check env)); [reflexivity|].
  cbn zeta. destruct (k_reply env) as [raw|msg resp]; [|reflexivity].
  destruct (decode_all _ _ raw); reflexivity.
Qed.

Lemma get_ticker_price_fetched (force : bool) (env : TickerEnv)
  (svc : MarketDataService) :
  fetched (get_ticker_price float_of_str force env svc)
  = negb (ticker_hit svc force (t_now_check env)).
Proof.
  destruct (ticker_hit svc force (t_now_check env)) eqn:Hhit.
  - by destruct (get_ticker_price_hit force env svc Hhit) as (p & _ & ->).
  - rewrite get_ticker_price_miss by done. unfold fetched. cbn zeta.
    destruct (t_reply env) as [data|msg resp]; [|reflexivity].
    by destruct (_ ≫= _).
Qed.

(** A call that went to the exchange and returned a value wrote it, with the
    clock reading of the update. *)
Lemma get_klines_fetch_inv (limit : Z) (force : bool) (env : KlinesEnv)
  (svc : MarketDataService) (cs : list Candle) :
  let o := get_klines int_of_str float_of_str limit force env svc in
  fetched o = true -> value_of o = Ok cs ->
  exists raw : list (list json),
    k_reply env = Answer raw /\
    decode_all int_of_str float_of_str raw = Ok cs /\
    exchange_calls (trace_of o)
    = [CallGetKlines (MarketData.symbol svc) (timeframe svc) limit] /\
    state_of o = with_cache svc (update_candles (_cache svc) cs (k_now_update env)).
Proof.
  intros o Hf Hv. subst o. rewrite get_klines_fetched in Hf.
  rewrite get_klines_cases in Hv |- *.
  destruct (klines_hit svc force (k_now_check env)); [done|]. cbn zeta in *.
  destruct (k_reply env) as [raw|msg resp]; [|done].
  destruct (decode_all _ _ raw) as [cs'|e] eqn:Hdec; [|done].
  injection Hv as ->. exists raw. split_and!; try done.
  by destruct (k_disk_ok env).
Qed.

Lemma get_ticker_price_fetch_inv (force : bool) (env : TickerEnv)
  (svc : MarketDataService) (p : float) :
  let o := get_ticker_price float_of_str force env svc in
  fetched o = true -> value_of o = Ok p ->
  exists (data : MarketData.dict) (v : json),
    t_reply env = Answer data /\ data !! "price" = Some v /\
    py_float float_of_str v = Ok p /\
    exchange_calls (trace_of o) = [CallGetTickerPrice (MarketData.symbol svc)] /\
    state_of o = with_cache svc (update_ticker (_cache svc) p (t_now_update env)).
Proof.
  intros o Hf Hv. subst o. rewrite get_ticker_price_fetched in Hf.
  apply negb_true_iff in Hf. rewrite get_ticker_price_miss in Hv |- * by done.
  cbn zeta in *.
  destruct (t_reply env) as [data|msg resp]; [|done].
  unfold getitem in *. destruct (data !! "price") as [v|] eqn:Hprice; [|done].
  cbn [mbind result_bind] in *.
  destruct (py_float float_of_str v) as [p'|e] eqn:Hp; [|done].
  injection Hv as ->. by exists data, v.
Qed.

End Cache.

Section CachePolicy.

Variable int_of_str : string -> result Z.
Variable float_of_str : string -> result float.

(** C8. An entry that holds nothing is never served: with an empty cached
    sequence [get_klines] goes to the exchange whatever [force_refresh] and
    the clock are, and with no cached price, or a cached price of exactly
    zero, [get_ticker_price] goes to the exchange; a value that such a call
    returns is the decoded reply, not the cached one. *)
Theorem empty_entry_is_always_fetched (svc : MarketDataService) :
  (candles (_cache svc) = [] ->
   forall (limit : Z) (force : bool) (env : KlinesEnv),
     let o := get_klines int_of_str float_of_str limit force env svc in
     exchange_calls (trace_of o)
     = [CallGetKlines (MarketData.symbol svc) (timeframe svc) limit] /\
     forall cs : list Candle,
       value_of o = Ok cs ->
       exists raw, k_reply env = Answer raw /\
                   decode_all int_of_str float_of_str raw = Ok cs) /\
  (ticker_price (_cache svc) = None \/
   (exists s : bool, ticker_price (_cache svc) = Some (S754_zero s)) ->
   forall (force : bool) (env : TickerEnv),
     let o := get_ticker_price float_of_str force env svc in
     exchange_calls (trace_of o) = [CallGetTickerPrice (MarketData.symbol svc)] /\
     forall p : float,
       value_of o = Ok p ->
       exists data v, t_reply env = Answer data /\ data !! "price" = Some v /\
                      py_float float_of_str v = Ok p).
Proof.
  split.
  - intros Hempty limit force env o.
    assert (Hf : fetched o = true).
    { subst o. rewrite get_klines_fetched. unfold klines_hit.
      by rewrite Hempty, andb_false_r. }
    split.
    + subst o. rewrite get_klines_cases in Hf |- *. unfold fetched in Hf.
      destruct (klines_hit svc force (k_now_check env)); [done|]. cbn zeta.
      destruct (k_reply env) as [raw|msg resp]; [|done].
      destruct (decode_all _ _ raw); [|done]. by destruct (k_disk_ok env).
    + intros cs Hv.
      destruct (get_klines_fetch_inv _ _ limit force env svc cs Hf Hv)
        as (raw & Hr & Hd & _). by exists raw.
  - intros Hzero force env o.
    assert (Hmiss : ticker_hit svc force (t_now_check env) = false).
    { unfold ticker_hit.
      destruct Hzero as [-> | [s ->]]; cbn [price_truthy float_truthy];
        by rewrite andb_false_r. }
    assert (Hf : fetched o = true).
    { subst o. by rewrite get_ticker_price_fetched, Hmiss. }
    split.
    + subst o. rewrite get_ticker_price_miss by done. cbn zeta.
      destruct (t_reply env) as [data|msg resp]; [|done].
      by destruct (_ ≫= _).
    + intros p Hv.
      destruct (get_ticker_price_fetch_inv _ force env svc p Hf Hv)
        as (data & v & Hr & Hp & Hd & _). by exists data, v.
Qed.

(** C9. When the exchange fetch inside [get_klines] fails, the caller gets
    the error of the exchange as it was raised, and the service is exactly
    as before the call: same cached sequence, same capture time; nothing
    is written to disk, and the next call sees the old snapshot. *)
Theorem failed_fetch_propagates_and_keeps_cache
  (limit : Z) (force : bool) (env : KlinesEnv) (svc : MarketDataService)
  (msg : string) (resp : option HttpResponse) :
  let o := get_klines int_of_str float_of_str limit force env svc in
  k_reply env = ClientError msg resp ->
  fetched o = true ->
  value_of o = Raise (BinanceClientError msg resp) /\
  state_of o = svc /\
  candles (_cache (state_of o)) = candles (_cache svc) /\
  last_updated (_cache (state_of o)) = last_updated (_cache svc) /\
  trace_of o = [CallGetKlines (MarketData.symbol svc) (timeframe svc) limit] /\
  forall limit' force' env',
    get_klines int_of_str float_of_str limit' force' env' (state_of o)
    = get_klines int_of_str float_of_str limit' force' env' svc.
Proof.
  intros o Herr Hf. subst o. rewrite get_klines_fetched in Hf.
  rewrite get_klines_cases.
  destruct (klines_hit svc force (k_now_check env)); [done|].
  cbn zeta. by rewrite Herr.
Qed.

(** A served request leaves the service as it is. *)
Lemma fresh_klines_requests_hit
  (svc : MarketDataService) (cs : list Candle) (reqs : list request) :
  candles (_cache svc) = cs -> cs <> [] ->
  Forall (fresh_klines_request (last_updated (_cache svc)) (ttl_seconds (_cache svc))) reqs ->
  run int_of_str float_of_str reqs svc
  = (map (fun _ => Klines (Ok cs)) reqs, svc, []).
Proof.
  intros Hcs Hne. induction 1 as [|r reqs Hr _ IH]; [done|].
  destruct r as [limit force env|]; [|done]. destruct Hr as [-> Hfresh].
  cbn [run serve]. rewrite get_klines_cases.
  assert (Hhit : klines_hit svc false (k_now_check env) = true).
  { unfold klines_hit, is_stale. rewrite Hcs.
    apply Qltb_ge in Hfresh. rewrite Hfresh. by destruct cs. }
  rewrite Hhit. cbn [value_of state_of trace_of fst snd].
  by rewrite IH, Hcs.
Qed.

Lemma fresh_ticker_requests_hit
  (svc : MarketDataService) (p : float) (reqs : list request) :
  ticker_price (_cache svc) = Some p -> float_truthy p = true ->
  Forall (fresh_ticker_request (last_updated (_cache svc)) (ttl_seconds (_cache svc))) reqs ->
  run int_of_str float_of_str reqs svc
  = (map (fun _ => Price (Ok p)) reqs, svc, []).
Proof.
  intros Hp Htrue. induction 1 as [|r reqs Hr _ IH]; [done|].
  destruct r as [|force env]; [done|]. destruct Hr as [-> Hfresh].
  cbn [run serve].
  assert (Hhit : ticker_hit svc false (t_now_check env) = true).
  { unfold ticker_hit, is_stale. rewrite Hp. cbn [price_truthy].
    apply Qltb_ge in Hfresh. by rewrite Hfresh, Htrue. }
  destruct (get_ticker_price_hit float_of_str false env svc Hhit) as (p' & Hp' & ->).
  cbn [value_of state_of trace_of fst snd].
  rewrite IH. assert (p' = p) as -> by congruence. done.
Qed.

(** C7, as the code has it.  After a candle fetch that returned a
    non-empty sequence, and until either entry is written again, every
    [get_klines] call without [force_refresh] whose clock reading is at
    most the TTL past the capture time returns the cached sequence and
    makes no exchange call; a call whose clock reading is more than the TTL
    past it makes exactly one exchange call and, when that returns a
    sequence, replaces the cached sequence by it and stamps the capture time
    with the clock reading of the update.  The same holds of the quote, for a
    fetched price that is not zero. *)
Theorem cache_serves_fresh_and_refetches_stale (svc : MarketDataService) :
  (forall (limit : Z) (force : bool) (env : KlinesEnv) (cs : list Candle),
     let o := get_klines int_of_str float_of_str limit force env svc in
     fetched o = true -> value_of o = Ok cs -> cs <> [] ->
     let svc1 := state_of o in
     let t := k_now_update env in
     let ttl := ttl_seconds (_cache svc) in
     candles (_cache svc1) = cs /\ last_updated (_cache svc1) = t /\
     (forall reqs : list request,
        Forall (fresh_klines_request t ttl) reqs ->
        run int_of_str float_of_str reqs svc1
        = (map (fun _ => Klines (Ok cs)) reqs, svc1, [])) /\
     (forall (limit' : Z) (env' : KlinesEnv),
        (inject_Z ttl < k_now_check env' - t)%Q ->
        let o' := get_klines int_of_str float_of_str limit' false env' svc1 in
        exchange_calls (trace_of o')
        = [CallGetKlines (MarketData.symbol svc) (timeframe svc) limit'] /\
        forall cs' : list Candle,
          value_of o' = Ok cs' ->
          candles (_cache (state_of o')) = cs' /\
          last_updated (_cache (state_of o')) = k_now_update env')) /\
  (forall (force : bool) (env : TickerEnv) (p : float),
     let o := get_ticker_price float_of_str force env svc in
     fetched o = true -> value_of o = Ok p -> float_truthy p = true ->
     let svc1 := state_of o in
     let t := t_now_update env in
     let ttl := ttl_seconds (_cache svc) in
     ticker_price (_cache svc1) = Some p /\ last_updated (_cache svc1) = t /\
     (forall reqs : list request,
        Forall (fresh_ticker_request t ttl) reqs ->
        run int_of_str float_of_str reqs svc1
        = (map (fun _ => Price (Ok p)) reqs, svc1, [])) /\
     (forall env' : TickerEnv,
        (inject_Z ttl < t_now_check env' - t)%Q ->
        let o' := get_ticker_price float_of_str false env' svc1 in
        exchange_calls (trace_of o') = [CallGetTickerPrice (MarketData.symbol svc)] /\
        forall p' : float,
          value_of o' = Ok p' ->
          ticker_price (_cache (state_of o')) = Some p' /\
          last_updated (_cache (state_of o')) = t_now_update env')).
Proof.
  split.
  - intros limit force env cs o Hf Hv Hne svc1 t ttl.
    destruct (get_klines_fetch_inv _ _ limit force env svc cs Hf Hv)
      as (raw & _ & _ & _ & Hst).
    subst svc1 t ttl o. rewrite Hst. split_and!; try done.
    + intros reqs Hreqs. by apply fresh_klines_requests_hit.
    + intros limit' env' Hstale o'.
      assert (Hf' : fetched o' = true).
      { subst o'. rewrite get_klines_fetched. unfold klines_hit, is_stale.
        cbn [_cache with_cache update_candles last_updated ttl_seconds].
        apply Qltb_lt in Hstale. by rewrite Hstale. }
      split.
      * subst o'. rewrite get_klines_fetched in Hf'.
        rewrite get_klines_cases.
        destruct (klines_hit _ false (k_now_check env')); [done|]. cbn zeta.
        destruct (k_reply env') as [raw'|]; [|done].
        destruct (decode_all _ _ raw'); [|done]. by destruct (k_disk_ok env').
      * intros cs' Hv'.
        destruct (get_klines_fetch_inv _ _ limit' false env' _ cs' Hf' Hv')
          as (raw' & _ & _ & _ & Hst').
        subst o'. by rewrite Hst'.
  - intros force env p o Hf Hv Htrue svc1 t ttl.
    destruct (get_ticker_price_fetch_inv _ force env svc p Hf Hv)
      as (data & v & _ & _ & _ & _ & Hst).
    subst svc1 t ttl o. rewrite Hst. split_and!; try done.
    + intros reqs Hreqs. by apply fresh_ticker_requests_hit.
    + intros env' Hstale o'.
      assert (Hmiss : ticker_hit
                (with_cache svc (update_ticker (_cache svc) p (t_now_update env)))
                false (t_now_check env') = false).
      { unfold ticker_hit, is_stale.
        cbn [_cache with_cache update_ticker last_updated ttl_seconds].
        apply Qltb_lt in Hstale. by rewrite Hstale. }
      assert (Hf' : fetched o' = true).
      { subst o'. by rewrite get_ticker_price_fetched, Hmiss. }
      split.
      * subst o'. rewrite get_ticker_price_miss by done. cbn zeta.
        destruct (t_reply env') as [data'|]; [|done]. by destruct (_ ≫= _).
      * intros p' Hv'.
        destruct (get_ticker_price_fetch_inv _ false env' _ p' Hf' Hv')
          as (data' & v' & _ & _ & _ & _ & Hst').
        subst o'. by rewrite Hst'.
Qed.

End CachePolicy.

Section SharedClock.

Variable int_of_str : string -> result Z.
Variable float_of_str : string -> result float.

Lemma serve_keeps_books (svc : MarketDataService) (g : capture_times) (r : request) :
  books_agree svc g ->
  books_agree (serve int_of_str float_of_str svc r).1.2
              (note int_of_str float_of_str g svc r) /\
  ttl_seconds (_cache (serve int_of_str float_of_str svc r).1.2)
  = ttl_seconds (_cache svc) /\
  MarketData.symbol (serve int_of_str float_of_str svc r).1.2 = MarketData.symbol svc.
Proof.
  intros [Hclock Hlatest]. destruct r as [limit force env|force env];
    cbn [serve note fst snd].
  - unfold wrote. rewrite get_klines_fetched, get_klines_cases.
    destruct (klines_hit svc force (k_now_check env)); [done|]. cbn zeta.
    destruct (k_reply env) as [raw|msg resp]; [|done].
    destruct (decode_all _ _ raw) as [cs|e]; [|done].
    split; [|done]. split; [done|]. by left.
  - unfold wrote. rewrite get_ticker_price_fetched.
    destruct (ticker_hit svc force (t_now_check env)) eqn:Hhit.
    { by destruct (get_ticker_price_hit float_of_str force env svc Hhit)
        as (p & _ & ->). }
    rewrite get_ticker_price_miss by done. cbn zeta.
    destruct (t_reply env) as [data|msg resp]; [|done].
    destruct (_ ≫= _) as [p|e]; [|done].
    split; [|done]. split; [done|]. by right.
Qed.

Lemma replay_keeps_books (reqs : list request) :
  forall (svc : MarketDataService) (g : capture_times),
    books_agree svc g ->
    books_agree (replay int_of_str float_of_str reqs svc g).1
                (replay int_of_str float_of_str reqs svc g).2 /\
    ttl_seconds (_cache (replay int_of_str float_of_str reqs svc g).1)
    = ttl_seconds (_cache svc) /\
    MarketData.symbol (replay int_of_str float_of_str reqs svc g).1
    = MarketData.symbol svc.
Proof.
  induction reqs as [|r reqs IH]; intros svc g Hbooks; [done|].
  cbn [replay].
  destruct (serve_keeps_books svc g r Hbooks) as (Hstep & Httl & Hsym).
  destruct (IH _ _ Hstep) as (Hrest & Httl' & Hsym').
  split; [done|]. split; congruence.
Qed.

(** Writing one entry leaves the value of the other as it is. *)
Lemma serve_keeps_other_value (svc : MarketDataService) (r : request) :
  match r with
  | GetKlines _ _ _ =>
      ticker_price (_cache (serve int_of_str float_of_str svc r).1.2)
      = ticker_price (_cache svc)
  | GetTickerPrice _ _ =>
      candles (_cache (serve int_of_str float_of_str svc r).1.2)
      = candles (_cache svc)
  end.
Proof.
  destruct r as [limit force env|force env]; cbn [serve fst snd].
  - rewrite get_klines_cases.
    destruct (klines_hit svc force (k_now_check env)); [done|]. cbn zeta.
    destruct (k_reply env) as [raw|msg resp]; [|done].
    by destruct (decode_all _ _ raw).
  - destruct (ticker_hit svc force (t_now_check env)) eqn:Hhit.
    { by destruct (get_ticker_price_hit float_of_str force env svc Hhit)
        as (p & _ & ->). }
    rewrite get_ticker_price_miss by done. cbn zeta.
    destruct (t_reply env) as [data|msg resp]; [|done].
    by destruct (_ ≫= _).
Qed.

(** C2, as the code has it.  The cache keeps the candle sequence and the
    quote as two values but one capture time for both.  After every sequence
    of [get_klines] and [get_ticker_price] calls on a new service, that
    capture time is the time of the latest write of either entry (0 when
    there was none), and a call goes to the exchange exactly when
    [force_refresh] is set, or the clock reading is more than the TTL past
    that capture time, or its own cached value is empty (no candles; no
    price or a zero price).  A write of one entry leaves the value of the
    other unchanged. *)
Theorem one_capture_time_for_both_entries
  (symbol timeframe : string) (ttl : Z) (data_dir : option string)
  (reqs : list request) (svc : MarketDataService) (g : capture_times) :
  replay int_of_str float_of_str reqs
    (new_service symbol timeframe ttl data_dir) never_written = (svc, g) ->
  last_updated (_cache svc) = default 0%Q (latest_at g) /\
  (latest_at g = candles_at g \/ latest_at g = quote_at g) /\
  (forall (limit : Z) (force : bool) (env : KlinesEnv),
     fetched (get_klines int_of_str float_of_str limit force env svc)
     = force
       || Qltb (inject_Z ttl) (k_now_check env - default 0%Q (latest_at g))%Q
       || negb (list_truthy (candles (_cache svc)))) /\
  (forall (force : bool) (env : TickerEnv),
     fetched (get_ticker_price float_of_str force env svc)
     = force
       || Qltb (inject_Z ttl) (t_now_check env - default 0%Q (latest_at g))%Q
       || negb (price_truthy (ticker_price (_cache svc)))) /\
  (forall r : request,
     match r with
     | GetKlines _ _ _ =>
         ticker_price (_cache (serve int_of_str float_of_str svc r).1.2)
         = ticker_price (_cache svc)
     | GetTickerPrice _ _ =>
         candles (_cache (serve int_of_str float_of_str svc r).1.2)
         = candles (_cache svc)
     end).
Proof.
  intros Hrun.
  destruct (replay_keeps_books reqs (new_service symbol timeframe ttl data_dir)
              never_written) as ([Hclock Hlatest] & Httl & _).
  { split; [done | by left]. }
  rewrite Hrun in Hclock, Hlatest, Httl. cbn [fst snd] in *.
  cbn [new_service _cache new_cache ttl_seconds] in Httl.
  split_and!; try done.
  - intros limit force env. rewrite get_klines_fetched.
    unfold klines_hit, is_stale. rewrite Hclock, Httl.
    by destruct force, (Qltb _ _), (list_truthy _).
  - intros force env. rewrite get_ticker_price_fetched.
    unfold ticker_hit, is_stale. rewrite Hclock, Httl.
    by destruct force, (Qltb _ _), (price_truthy _).
  - apply serve_keeps_other_value.
Qed.

End SharedClock.

(** C2, as stated, fails.  The candles are fetched at time 1000 with a TTL
    of 30.  At time 1040 their own entry is 40 seconds old in both runs;
    [get_klines] goes to the exchange in the run without a quote fetch, and
    serves the cache in the run where the quote was fetched at 1025. *)
Lemma candle_staleness_follows_quote_write :
  let fetch_candles := GetKlines 100 false (klines_env 1000 two_klines) in
  let fetch_quote := GetTickerPrice false (ticker_env 1025 quote_50100) in
  let run1 := replay decimal_int_of_str decimal_float_of_str
                [fetch_candles] svc0 never_written in
  let run2 := replay decimal_int_of_str decimal_float_of_str
                [fetch_candles; fetch_quote] svc0 never_written in
  let again (svc : MarketDataService) :=
    get_klines decimal_int_of_str decimal_float_of_str 100 false
      (klines_env 1040 two_klines) svc in
  candles_at run1.2 = Some (inject_Z 1000) /\
  candles_at run2.2 = Some (inject_Z 1000) /\
  candles (_cache run1.1) = candles (_cache run2.1) /\
  fetched (again run1.1) = true /\
  fetched (again run2.1) = false.
Proof. vm_compute. by split_and!. Qed.

(** C7, as stated, fails twice.  A fetch that returned no candles is not
    served from the cache one second later; and candles fetched at 1000 are
    served from the cache at 1040, after the TTL of 30 has elapsed, when the
    quote was fetched at 1025. *)
Lemma fresh_candle_entry_refetched_and_stale_entry_served :
  let get := get_klines decimal_int_of_str decimal_float_of_str 100 false in
  let o := get (klines_env 1000 []) svc0 in
  let o1 := get (klines_env 1000 two_klines) svc0 in
  let o2 := get_ticker_price decimal_float_of_str false
              (ticker_env 1025 quote_50100) (state_of o1) in
  (fetched o = true /\ value_of o = Ok [] /\
   (inject_Z 1001 - inject_Z 1000 <= inject_Z (ttl_seconds (_cache svc0)))%Q /\
   exchange_calls (trace_of (get (klines_env 1001 []) (state_of o)))
   = [CallGetKlines "BTCUSDT" "5m" 100]) /\
  (fetched o1 = true /\ is_ok (value_of o1) = true /\
   (inject_Z (ttl_seconds (_cache svc0)) < inject_Z 1040 - inject_Z 1000)%Q /\
   exchange_calls (trace_of (get (klines_env 1040 two_klines) (state_of o2))) = []).
Proof. vm_compute. by split_and!. Qed.

(** ** Overlapping calls of [execute] *)

Section Coroutines.

(** A task that runs alone does what the call does. *)
Lemma run_alone_is_execute (env : ExecEnv) (signal : Signal) (om : OrderManager) :
  outcome_of (run_alone env signal om) = Some (execute signal env om).
Proof.
  rewrite execute_cases. unfold run_alone. cbn [resume].
  case_bool_decide as Hsig; [reflexivity|]. cbn [resume].
  destruct (reports_open_orders env); [reflexivity|].
  destruct (cooling_down om (side_of signal) (now_cooldown env)); [reflexivity|].
  cbn [resume]. destruct (place_reply env); reflexivity.
Qed.

(** Three steps of one task from its creation are the task run alone. *)
Lemma three_steps_of_a (env_a env_b : ExecEnv) (signal : Signal) (s : system) :
  task_a s = Created signal ->
  run_schedule env_a env_b [TaskA; TaskA; TaskA] s
  = let '(t, om, eff) := run_alone env_a signal (manager s) in
    {| manager := om; task_a := t; task_b := task_b s; log := log s ++ eff |}.
Proof.
  intros Ha. unfold run_schedule, run_alone. cbn [fold_left step].
  rewrite Ha.
  destruct (resume env_a (Created signal) (manager s)) as [[t1 om1] e1].
  cbn [manager task_a task_b log].
  destruct (resume env_a t1 om1) as [[t2 om2] e2].
  cbn [manager task_a task_b log].
  destruct (resume env_a t2 om2) as [[t3 om3] e3].
  cbn [manager task_a task_b log]. by rewrite <- !app_assoc.
Qed.

Lemma three_steps_of_b (env_a env_b : ExecEnv) (signal : Signal) (s : system) :
  task_b s = Created signal ->
  run_schedule env_a env_b [TaskB; TaskB; TaskB] s
  = let '(t, om, eff) := run_alone env_b signal (manager s) in
    {| manager := om; task_a := task_a s; task_b := t; log := log s ++ eff |}.
Proof.
  intros Hb. unfold run_schedule, run_alone. cbn [fold_left step].
  rewrite Hb.
  destruct (resume env_b (Created signal) (manager s)) as [[t1 om1] e1].
  cbn [manager task_a task_b log].
  destruct (resume env_b t1 om1) as [[t2 om2] e2].
  cbn [manager task_a task_b log].
  destruct (resume env_b t2 om2) as [[t3 om3] e3].
  cbn [manager task_a task_b log]. by rewrite <- !app_assoc.
Qed.

(** Two calls of which the second starts when the first has returned are
    two calls of [execute] in a row. *)
Lemma serial_schedule_is_sequence
  (env_a env_b : ExecEnv) (signal_a signal_b : Signal) (om : OrderManager) :
  let o1 := execute signal_a env_a om in
  let o2 := execute signal_b env_b (state_of o1) in
  exists r1 r2 : OrderResult,
    value_of o1 = Ok r1 /\ value_of o2 = Ok r2 /\
    run_schedule env_a env_b a_then_b (start om signal_a signal_b)
    = {| manager := state_of o2; task_a := Finished r1; task_b := Finished r2;
         log := trace_of o1 ++ trace_of o2 |}.
Proof.
  intros o1 o2.
  change a_then_b with ([TaskA; TaskA; TaskA] ++ [TaskB; TaskB; TaskB]).
  unfold run_schedule. rewrite fold_left_app.
  fold (run_schedule env_a env_b [TaskA; TaskA; TaskA] (start om signal_a signal_b)).
  rewrite (three_steps_of_a env_a env_b signal_a) by done.
  cbn [start manager task_b log].
  pose proof (run_alone_is_execute env_a signal_a om) as H1.
  destruct (run_alone env_a signal_a om) as [[t1 om1] e1].
  destruct t1 as [| | |r1]; try discriminate H1. injection H1 as H1.
  fold (run_schedule env_a env_b [TaskB; TaskB; TaskB]
          {| manager := om1; task_a := Finished r1; task_b := Created signal_b;
             log := [] ++ e1 |}).
  rewrite (three_steps_of_b env_a env_b signal_b) by done.
  cbn [manager task_a log].
  assert (Hom1 : om1 = state_of o1) by (subst o1; by rewrite <- H1).
  assert (He1 : e1 = trace_of o1) by (subst o1; by rewrite <- H1).
  pose proof (run_alone_is_execute env_b signal_b om1) as H2.
  destruct (run_alone env_b signal_b om1) as [[t2 om2] e2].
  destruct t2 as [| | |r2]; try discriminate H2. injection H2 as H2.
  exists r1, r2. subst o2. rewrite <- Hom1, <- H2. subst o1.
  rewrite <- H1. by cbn.
Qed.

(** C3, as the code has it.  [execute] holds no lock.  When the second call
    starts after the first has returned, the two behave as two calls in a
    row; then, if the first submitted an order successfully and the second,
    for the same side, reads the clock less than the cooldown after the
    first was recorded, the second fails and the only order submitted is the
    one of the first. *)
Theorem serialized_calls_do_not_both_submit
  (signal : Signal) (env_a env_b : ExecEnv) (om : OrderManager)
  (r_a : OrderResult) :
  signal <> HOLD ->
  let s := run_schedule env_a env_b a_then_b (start om signal signal) in
  task_a s = Finished r_a ->
  success r_a = true ->
  (now_cooldown env_b - now_record env_a < inject_Z (order_cooldown_seconds om))%Q ->
  manager s = state_of (execute signal env_b (state_of (execute signal env_a om))) /\
  log s = trace_of (execute signal env_a om)
          ++ trace_of (execute signal env_b (state_of (execute signal env_a om))) /\
  exists r_b : OrderResult,
    task_b s = Finished r_b /\ success r_b = false /\
    submissions (log s)
    = [CallPlaceMarketOrder (symbol om) (side_of signal) (position_size om)].
Proof.
  intros Hsig s Ha Hok Hwin. subst s.
  destruct (serial_schedule_is_sequence env_a env_b signal signal om)
    as (r1 & r2 & Hr1 & Hr2 & Hrun).
  rewrite Hrun in Ha |- *. cbn [manager task_a task_b log] in *.
  injection Ha as ->. split; [done|]. split; [done|].
  exists r2. split; [done|].
  destruct (execute_success_inv signal env_a om r_a Hsig Hr1 Hok)
    as (result & _ & _ & _ & Hex).
  rewrite Hex in Hr2 |- *. cbn [state_of trace_of fst snd] in *.
  rewrite execute_cases in Hr2 |- *.
  rewrite bool_decide_eq_false_2 in Hr2 |- * by done. cbn zeta in *.
  rewrite cooling_down_after_record in Hr2 |- * by done.
  destruct (reports_open_orders env_b); injection Hr2 as <-; done.
Qed.

End Coroutines.

(** C3, as stated, fails.  Two LONG calls overlap on a manager with a
    cooldown of 60 seconds: both get the answer "no open orders" before
    either has placed its order, both find the side off cooldown (at 1000
    and 1001) before either has recorded its order (at 1003 and 1004), and
    both submit; the exchange accepts both orders. *)
Lemma overlapping_calls_both_submit :
  let s := run_schedule (env_accept_at 1000 1003 1) (env_accept_at 1001 1004 2)
             interleaved (start om0 LONG LONG) in
  success <$> result_of (task_a s) = Some true /\
  success <$> result_of (task_b s) = Some true /\
  submissions (log s)
  = [CallPlaceMarketOrder "BTCUSDT" "BUY" size_0_001;
     CallPlaceMarketOrder "BTCUSDT" "BUY" size_0_001].
Proof. vm_compute. by split_and!. Qed.

(** ** The properties at concrete inputs *)

(** Two LONG calls in a row, 30 seconds apart. *)
Lemma serialized_calls_do_not_both_submit_witness :
  let s := run_schedule (env_accept 1000 1) (env_accept 1030 2) a_then_b
             (start om0 LONG LONG) in
  manager s
  = state_of (execute LONG (env_accept 1030 2)
                (state_of (execute LONG (env_accept 1000 1) om0))) /\
  log s
  = trace_of (execute LONG (env_accept 1000 1) om0)
    ++ trace_of (execute LONG (env_accept 1030 2)
                   (state_of (execute LONG (env_accept 1000 1) om0))) /\
  exists r_b : OrderResult,
    task_b s = Finished r_b /\ success r_b = false /\
    submissions (log s) = [CallPlaceMarketOrder "BTCUSDT" "BUY" size_0_001].
Proof.
  apply (serialized_calls_do_not_both_submit LONG (env_accept 1000 1)
           (env_accept 1030 2) om0 (placed {[ "orderId" := JInt 1 ]})).
  - discriminate.
  - vm_compute. reflexivity.
  - reflexivity.
  - vm_compute. reflexivity.
Defined.

(** A new service fetches both entries. *)
Lemma empty_entry_is_always_fetched_witness :
  exchange_calls
    (trace_of (get_klines decimal_int_of_str decimal_float_of_str 100 false
                 (klines_env 1000 two_klines) svc0))
  = [CallGetKlines "BTCUSDT" "5m" 100] /\
  exchange_calls
    (trace_of (get_ticker_price decimal_float_of_str false
                 (ticker_env 1000 quote_50100) svc0))
  = [CallGetTickerPrice "BTCUSDT"].
Proof.
  destruct (empty_entry_is_always_fetched decimal_int_of_str
              decimal_float_of_str svc0) as [Hk Ht].
  split.
  - apply (Hk eq_refl 100 false (klines_env 1000 two_klines)).
  - apply (Ht (or_introl eq_refl) false (ticker_env 1000 quote_50100)).
Defined.

(** Candles fetched at 1000; the fetch at 1040 times out. *)
Lemma failed_fetch_propagates_and_keeps_cache_witness :
  let svc1 := state_of (get_klines decimal_int_of_str decimal_float_of_str 100
                          false (klines_env 1000 two_klines) svc0) in
  let o := get_klines decimal_int_of_str decimal_float_of_str 100 false
             (klines_env_failing 1040) svc1 in
  value_of o = Raise (BinanceClientError "Request timed out: " None) /\
  state_of o = svc1.
Proof.
  intros svc1 o.
  destruct (failed_fetch_propagates_and_keeps_cache decimal_int_of_str
              decimal_float_of_str 100 false (klines_env_failing 1040) svc1
              "Request timed out: " None) as (Hv & Hs & _).
  - reflexivity.
  - vm_compute. reflexivity.
  - by split.
Defined.

(** Candles fetched at 1000 are served at 1010 and at 1030, and fetched
    again at 1031. *)
Lemma cache_serves_fresh_and_refetches_stale_witness :
  let o := get_klines decimal_int_of_str decimal_float_of_str 100 false
             (klines_env 1000 two_klines) svc0 in
  run decimal_int_of_str decimal_float_of_str
    [GetKlines 100 false (klines_env 1010 []);
     GetKlines 100 false (klines_env 1030 [])] (state_of o)
  = ([Klines (Ok two_candles); Klines (Ok two_candles)], state_of o, []) /\
  exchange_calls
    (trace_of (get_klines decimal_int_of_str decimal_float_of_str 50 false
                 (klines_env 1031 two_klines) (state_of o)))
  = [CallGetKlines "BTCUSDT" "5m" 50].
Proof.
  intros o.
  destruct (cache_serves_fresh_and_refetches_stale decimal_int_of_str
              decimal_float_of_str svc0) as [Hk _].
  assert (Hv : value_of o = Ok two_candles) by (vm_compute; reflexivity).
  assert (Hne : two_candles <> []) by (vm_compute; discriminate).
  destruct (Hk 100 false (klines_env 1000 two_klines) two_candles eq_refl Hv Hne)
    as (_ & _ & Hfresh & Hstale).
  split.
  - apply (Hfresh [GetKlines 100 false (klines_env 1010 []);
                   GetKlines 100 false (klines_env 1030 [])]).
    repeat constructor; vm_compute; discriminate.
  - apply (Hstale 50 (klines_env 1031 two_klines)). vm_compute. reflexivity.
Defined.

(** Candles fetched at 1000, the quote at 1025: the capture time is 1025. *)
Lemma one_capture_time_for_both_entries_witness :
  let run2 := replay decimal_int_of_str decimal_float_of_str
                [GetKlines 100 false (klines_env 1000 two_klines);
                 GetTickerPrice false (ticker_env 1025 quote_50100)]
                svc0 never_written in
  last_updated (_cache run2.1) = default 0%Q (latest_at run2.2) /\
  latest_at run2.2 = Some (inject_Z 1025).
Proof.
  intros run2.
  destruct (one_capture_time_for_both_entries decimal_int_of_str
              decimal_float_of_str "BTCUSDT" "5m" 30 None
              [GetKlines 100 false (klines_env 1000 two_klines);
               GetTickerPrice false (ticker_env 1025 quote_50100)]
              run2.1 run2.2) as (Hclock & _).
  - symmetry. apply surjective_pairing.
  - split; [exact Hclock | vm_compute; reflexivity].
Defined.

(** * Further properties of the code *)

Import Trading.

(** ** [OrderManager]: what a call does and what a run keeps *)

Section OrderGuardMore.

(** X1. The calls that [execute] makes: none for HOLD; otherwise the open-orders
    query first and then at most one order, a market order for the
    manager's symbol and position size, BUY for LONG and SELL for SHORT. *)
Theorem execute_calls_query_then_at_most_one_order
  (signal : Signal) (env : ExecEnv) (om : OrderManager) :
  let o := execute signal env om in
  let order :=
    CallPlaceMarketOrder (symbol om)
      (match signal with LONG => "BUY" | _ => "SELL" end) (position_size om) in
  (signal = HOLD -> o = (Ok hold_result, om, [])) /\
  (signal <> HOLD ->
     trace_of o = [CallGetOpenOrders (symbol om)] \/
     trace_of o = [CallGetOpenOrders (symbol om); order]) /\
  (submissions (trace_of o) = [] \/ submissions (trace_of o) = [order]).
Proof.
  intros o order. subst o order. rewrite execute_cases.
  assert (Hside : side_of signal = match signal with LONG => "BUY" | _ => "SELL" end)
    by (by destruct signal).
  rewrite <- Hside.
  case_bool_decide as Hsig; [by split_and!; [|intros []|left]|].
  cbn zeta.
  destruct (reports_open_orders env); [split_and!; by try left|].
  destruct (cooling_down om (side_of signal) (now_cooldown env));
    [split_and!; by try left|].
  destruct (place_reply env); split_and!; by try right.
Qed.

(** [execute] never touches the configuration of the manager, and the only
    timestamp it can write is the one of the side of its signal. *)
Lemma execute_keeps_configuration
  (signal : Signal) (env : ExecEnv) (om : OrderManager) :
  let om' := state_of (execute signal env om) in
  symbol om' = symbol om /\
  position_size om' = position_size om /\
  order_type om' = order_type om /\
  order_cooldown_seconds om' = order_cooldown_seconds om /\
  forall side : string,
    side <> side_of signal ->
    _last_order_time om' !! side = _last_order_time om !! side.
Proof.
  intros om'. subst om'. rewrite execute_cases.
  case_bool_decide as Hsig; [done|]. cbn zeta.
  destruct (reports_open_orders env); [done|].
  destruct (cooling_down om (side_of signal) (now_cooldown env)); [done|].
  destruct (place_reply env); [|done].
  split_and!; try done. intros side Hne.
  cbn [state_of fst snd _last_order_time with_last_order_time].
  by rewrite lookup_insert_ne.
Qed.

(** What one call leaves in the timestamp of a side. *)
Lemma execute_last_order_time
  (signal : Signal) (env : ExecEnv) (om : OrderManager) (side : string) :
  let o := execute signal env om in
  _last_order_time (state_of o) !! side
  = if submission_succeeded env o && bool_decide (side_of signal = side)
    then Some (now_record env)
    else _last_order_time om !! side.
Proof.
  intros o. subst o. rewrite execute_cases. unfold submission_succeeded.
  case_bool_decide as Hsig; [done|]. cbn zeta.
  destruct (reports_open_orders env); [done|].
  destruct (cooling_down om (side_of signal) (now_cooldown env)); [done|].
  destruct (place_reply env); [|done].
  cbn [state_of trace_of fst snd _last_order_time with_last_order_time
       submissions List.filter is_order_submission list_truthy is_answer andb].
  case_bool_decide as Hside.
  - subst side. by rewrite lookup_insert_eq.
  - by rewrite lookup_insert_ne.
Qed.

Lemma run_calls_last_order_time
  (calls : list (Signal * ExecEnv)) (om : OrderManager) (side : string) :
  let om' := (run_calls calls om).1.2 in
  _last_order_time om' !! side
  = match last_accepted side calls om with
    | Some t => Some t
    | None => _last_order_time om !! side
    end /\
  order_cooldown_seconds om' = order_cooldown_seconds om.
Proof.
  revert om. induction calls as [|[signal env] rest IH]; intros om; [done|].
  cbn [run_calls last_accepted].
  specialize (IH (state_of (execute signal env om))).
  destruct (run_calls rest (state_of (execute signal env om))) as [[values om2] t2].
  cbn [fst snd] in *. destruct IH as [IHtime IHcool].
  split.
  - rewrite IHtime.
    destruct (last_accepted side rest _); [done|].
    rewrite (execute_last_order_time signal env om side).
    by destruct (_ && _).
  - rewrite IHcool.
    by destruct (execute_keeps_configuration signal env om) as (_ & _ & _ & ? & _).
Qed.

(** X2. Over a run of calls on one manager, the timestamp of each side is the
    clock reading recorded by the latest call whose order on that side the
    exchange accepted, and the timestamp the manager started with when there
    was no such call; the cooldown that the manager is configured with never
    changes. *)
Theorem run_records_latest_accepted_order
  (calls : list (Signal * ExecEnv)) (om : OrderManager) (side : string) :
  let om' := (run_calls calls om).1.2 in
  _last_order_time om' !! side
  = match last_accepted side calls om with
    | Some t => Some t
    | None => _last_order_time om !! side
    end /\
  order_cooldown_seconds om' = order_cooldown_seconds om.
Proof. apply run_calls_last_order_time. Qed.

(** X3. Orders accepted on one side are a cooldown apart: when a call that
    follows a run has its order accepted, its cooldown reading of the clock
    is at least [order_cooldown_seconds] past the reading recorded for the
    latest order that the exchange accepted on that side during the run. *)
Theorem accepted_orders_are_a_cooldown_apart
  (calls : list (Signal * ExecEnv)) (om : OrderManager)
  (signal : Signal) (env : ExecEnv) (t : Q) :
  let om' := (run_calls calls om).1.2 in
  last_accepted (side_of signal) calls om = Some t ->
  submission_succeeded env (execute signal env om') = true ->
  (inject_Z (order_cooldown_seconds om) <= now_cooldown env - t)%Q.
Proof.
  intros om' Hlast Hok.
  destruct (run_calls_last_order_time calls om (side_of signal))
    as [Htime Hcool].
  fold om' in Htime, Hcool. rewrite Hlast in Htime.
  unfold submission_succeeded in Hok. rewrite execute_cases in Hok.
  case_bool_decide as Hsig; [done|]. cbn zeta in Hok.
  destruct (reports_open_orders env); [done|].
  destruct (cooling_down om' (side_of signal) (now_cooldown env)) eqn:Hcd; [done|].
  unfold cooling_down in Hcd. rewrite Htime, Hcool in Hcd. cbn [default] in Hcd.
  by apply Qltb_ge in Hcd.
Qed.

(** X4. The cooldown is kept per side: a call for one side leaves the next call
    for the other side with the result and the exchange calls that it would
    have had without it. *)
Theorem other_side_is_not_held_back
  (signal1 signal2 : Signal) (env1 env2 : ExecEnv) (om : OrderManager) :
  side_of signal1 <> side_of signal2 ->
  let om1 := state_of (execute signal1 env1 om) in
  value_of (execute signal2 env2 om1) = value_of (execute signal2 env2 om) /\
  trace_of (execute signal2 env2 om1) = trace_of (execute signal2 env2 om).
Proof.
  intros Hsides om1.
  destruct (execute_keeps_configuration signal1 env1 om)
    as (Hsym & Hsize & _ & Hcool & Hother).
  fold om1 in Hsym, Hsize, Hcool, Hother.
  assert (Hcd : cooling_down om1 (side_of signal2) (now_cooldown env2)
                = cooling_down om (side_of signal2) (now_cooldown env2)).
  { unfold cooling_down. by rewrite Hcool, Hother. }
  rewrite !execute_cases. case_bool_decide as Hsig; [done|]. cbn zeta.
  rewrite Hcd, Hsym, Hsize, Hcool.
  destruct (reports_open_orders env2); [done|].
  destruct (cooling_down om (side_of signal2) (now_cooldown env2)); [done|].
  by destruct (place_reply env2).
Qed.

(** X5. Once the cooldown has run out the side is free again: after an accepted
    order, a call for the same side that finds no open orders and reads the
    clock [order_cooldown_seconds] or more past the recorded reading (exactly
    that much included) sends its order. *)
Theorem call_after_cooldown_submits
  (signal : Signal) (env1 env2 : ExecEnv) (om : OrderManager) (r1 : OrderResult) :
  signal <> HOLD ->
  value_of (execute signal env1 om) = Ok r1 ->
  success r1 = true ->
  open_orders_reply env2 = Answer [] ->
  (inject_Z (order_cooldown_seconds om) <= now_cooldown env2 - now_record env1)%Q ->
  submissions (trace_of (execute signal env2 (state_of (execute signal env1 om))))
  = [CallPlaceMarketOrder (symbol om) (side_of signal) (position_size om)].
Proof.
  intros Hsig Hr1 Hok Hnone Hlate.
  destruct (execute_success_inv signal env1 om r1 Hsig Hr1 Hok)
    as (result & _ & _ & _ & ->).
  cbn [state_of fst snd]. rewrite execute_cases.
  rewrite bool_decide_eq_false_2 by done. cbn zeta.
  assert (Hrep : reports_open_orders env2 = false)
    by (unfold reports_open_orders; by rewrite Hnone).
  assert (Hcd : cooling_down
                  (with_last_order_time om
                     (<[side_of signal := now_record env1]> (_last_order_time om)))
                  (side_of signal) (now_cooldown env2) = false).
  { unfold cooling_down.
    cbn [_last_order_time order_cooldown_seconds with_last_order_time].
    rewrite lookup_insert_eq. by apply Qltb_ge. }
  rewrite Hrep, Hcd. by destruct (place_reply env2).
Qed.

End OrderGuardMore.

(** ** [Candle.from_binance] and the decoding of a reply *)

Import Outside.

Section Decoding.

Variable int_of_str : string -> result Z.
Variable float_of_str : string -> result float.

(** [l[n]] for an index within the list. *)
Lemma index_within {A} (l : list A) (n : nat) (x : A) :
  l !! n = Some x -> index l (Z.of_nat n) = Ok x.
Proof.
  intros Hx. unfold index. apply lookup_lt_Some in Hx as Hlt.
  destruct (Z.ltb_spec (Z.of_nat n) 0); [lia|].
  destruct (Z.ltb_spec (Z.of_nat n) 0); [lia|].
  destruct (Z.leb_spec (Z.of_nat (length l)) (Z.of_nat n)); [lia|].
  cbn [orb]. by rewrite Nat2Z.id, Hx.
Qed.

(** [l[n]] for an index past the end. *)
Lemma index_past_end {A} (l : list A) (n : nat) :
  (length l <= n)%nat -> index l (Z.of_nat n) = Raise IndexError.
Proof.
  intros Hle. unfold index.
  destruct (Z.ltb_spec (Z.of_nat n) 0); [lia|].
  destruct (Z.ltb_spec (Z.of_nat n) 0); [lia|].
  by destruct (Z.leb_spec (Z.of_nat (length l)) (Z.of_nat n)); [|lia].
Qed.

#[local] Ltac decode_step :=
  cbn [mbind result_bind];
  first
    [ rewrite index_past_end by (simpl; lia)
    | erewrite index_within by reflexivity
    | match goal with
      | |- context [py_int ?a ?v] => destruct (py_int a v)
      | |- context [py_float ?a ?v] => destruct (py_float a v)
      end ].

(** X6. A kline record is read by position: a record of fewer than six fields
    does not decode, whatever it holds, and fields after the sixth are
    ignored. *)
Theorem from_binance_reads_six_fields (raw extra : list json) :
  ((length raw < 6)%nat ->
   exists e : exn, from_binance int_of_str float_of_str raw = Raise e) /\
  (length raw = 6%nat ->
   from_binance int_of_str float_of_str (raw ++ extra)
   = from_binance int_of_str float_of_str raw).
Proof.
  unfold from_binance.
  change 0 with (Z.of_nat 0). change 1 with (Z.of_nat 1).
  change 2 with (Z.of_nat 2). change 3 with (Z.of_nat 3).
  change 4 with (Z.of_nat 4). change 5 with (Z.of_nat 5).
  split.
  - intros Hshort.
    destruct raw as [|r0 [|r1 [|r2 [|r3 [|r4 [|r5 rest]]]]]];
      [..|simpl in Hshort; lia];
      repeat decode_step; cbn [mbind result_bind]; by eexists.
  - intros Hsix.
    destruct raw as [|r0 [|r1 [|r2 [|r3 [|r4 [|r5 [|r6 rest]]]]]]];
      try discriminate Hsix.
    repeat decode_step; done.
Qed.

(** X7. A reply decodes as a whole or not at all: [decode_all] returns a list
    exactly when every record decodes, and then the candles are the decoded
    records, one for one and in the order of the reply. *)
Theorem decode_all_is_all_or_nothing (raw : list (list json)) (cs : list Candle) :
  decode_all int_of_str float_of_str raw = Ok cs
  <-> Forall2 (fun k c => from_binance int_of_str float_of_str k = Ok c) raw cs.
Proof.
  revert cs. induction raw as [|k rest IH]; intros cs.
  - split; [by intros [= <-]; constructor | by inversion 1].
  - cbn [decode_all]. split.
    + destruct (from_binance _ _ k) as [c|e] eqn:Hk; [|done].
      cbn [mbind result_bind].
      destruct (decode_all _ _ rest) as [cs'|e] eqn:Hrest; [|done].
      intros [= <-]. constructor; [done|]. by apply IH.
    + inversion 1 as [|k' c rest' cs' Hk Hrest]; subst.
      rewrite Hk. cbn [mbind result_bind].
      apply IH in Hrest. by rewrite Hrest.
Qed.

End Decoding.

(** ** [MarketDataService]: refresh, failure and the disk *)

Section CacheMore.

Variable int_of_str : string -> result Z.
Variable float_of_str : string -> result float.

(** X8. With [force_refresh] both getters go to the exchange, once, whatever the
    cache holds and whatever the clock reads. *)
Theorem force_refresh_always_fetches (svc : MarketDataService) :
  (forall (limit : Z) (env : KlinesEnv),
     exchange_calls (trace_of (get_klines int_of_str float_of_str limit true env svc))
     = [CallGetKlines (MarketData.symbol svc) (timeframe svc) limit]) /\
  (forall env : TickerEnv,
     exchange_calls (trace_of (get_ticker_price float_of_str true env svc))
     = [CallGetTickerPrice (MarketData.symbol svc)]).
Proof.
  split.
  - intros limit env. rewrite get_klines_cases. unfold klines_hit.
    cbn [negb andb]. cbn zeta.
    destruct (k_reply env) as [raw|]; [|done].
    destruct (decode_all _ _ raw); [|done]. by destruct (k_disk_ok env).
  - intros env. rewrite get_ticker_price_miss by done. cbn zeta.
    destruct (t_reply env) as [data|]; [|done]. by destruct (_ ≫= _).
Qed.

(** X9. A getter that raises has changed nothing: whenever [get_klines] or
    [get_ticker_price] ends in an exception (an error of the client, a
    record or a price that does not decode, a missing ["price"] key), the
    service is as it was before the call and no file has been written. *)
Theorem raising_getter_leaves_service_unchanged (svc : MarketDataService) (e : exn) :
  (forall (limit : Z) (force : bool) (env : KlinesEnv),
     let o := get_klines int_of_str float_of_str limit force env svc in
     value_of o = Raise e ->
     state_of o = svc /\ file_writes (trace_of o) = []) /\
  (forall (force : bool) (env : TickerEnv),
     let o := get_ticker_price float_of_str force env svc in
     value_of o = Raise e ->
     state_of o = svc).
Proof.
  split.
  - intros limit force env o Hv. subst o. rewrite get_klines_cases in Hv |- *.
    destruct (klines_hit svc force (k_now_check env)); [done|]. cbn zeta in *.
    destruct (k_reply env) as [raw|]; [|done].
    by destruct (decode_all _ _ raw).
  - intros force env o Hv. subst o.
    destruct (ticker_hit svc force (t_now_check env)) eqn:Hhit.
    { destruct (get_ticker_price_hit float_of_str force env svc Hhit)
        as (p & _ & Heq). by rewrite Heq in Hv |- *. }
    rewrite get_ticker_price_miss in Hv |- * by done. cbn zeta in *.
    destruct (t_reply env) as [data|]; [|done]. by destruct (_ ≫= _).
Qed.

(** X10. A reply to the quote request without a ["price"] key raises
    [KeyError('price')]; nothing of the reply is cached. *)
Theorem quote_without_price_raises_key_error
  (svc : MarketDataService) (force : bool) (env : TickerEnv)
  (data : MarketData.dict) :
  let o := get_ticker_price float_of_str force env svc in
  fetched o = true ->
  t_reply env = Answer data ->
  data !! "price" = None ->
  value_of o = Raise (KeyError "price") /\ state_of o = svc.
Proof.
  intros o Hf Hreply Hmissing. subst o.
  rewrite get_ticker_price_fetched in Hf. apply negb_true_iff in Hf.
  rewrite get_ticker_price_miss by done. cbn zeta.
  rewrite Hreply. unfold getitem. by rewrite Hmissing.
Qed.

(** X11. The disk does not count: whether the file can be written changes neither
    what [get_klines] returns nor what it caches.  A file is written exactly
    when the call fetched, decoded the reply and the disk allows it; it is the
    one file of the symbol and timeframe, and it holds the candles that the
    call returns. *)
Theorem disk_failure_is_swallowed
  (svc : MarketDataService) (limit : Z) (force : bool) (env : KlinesEnv) (ok : bool) :
  let o := get_klines int_of_str float_of_str limit force env svc in
  let o' := get_klines int_of_str float_of_str limit force (with_disk_ok env ok) svc in
  value_of o' = value_of o /\
  state_of o' = state_of o /\
  exchange_calls (trace_of o') = exchange_calls (trace_of o) /\
  (file_writes (trace_of o) = [] \/
   exists cs : list Candle,
     file_writes (trace_of o) = [WriteFile (candles_file svc) cs] /\
     value_of o = Ok cs /\ k_disk_ok env = true /\ fetched o = true) /\
  (fetched o = true -> is_ok (value_of o) = true -> k_disk_ok env = true ->
   file_writes (trace_of o) <> []).
Proof.
  intros o o'. subst o o'. rewrite get_klines_fetched, !get_klines_cases.
  cbn [k_now_check k_reply k_now_update k_disk_ok with_disk_ok].
  destruct (klines_hit svc force (k_now_check env)); [by split_and!; try left|].
  cbn zeta.
  destruct (k_reply env) as [raw|]; [|by split_and!; try left].
  destruct (decode_all _ _ raw) as [cs|]; [|by split_and!; try left].
  destruct (k_disk_ok env), ok; split_and!; try done; try (by left).
  all: right; by exists cs.
Qed.

(** X12. A TTL below zero turns the cache off: as long as the clock does not read
    less than the capture time, every call goes to the exchange. *)
Theorem negative_ttl_always_fetches (svc : MarketDataService) :
  ttl_seconds (_cache svc) < 0 ->
  (forall (limit : Z) (force : bool) (env : KlinesEnv),
     (last_updated (_cache svc) <= k_now_check env)%Q ->
     fetched (get_klines int_of_str float_of_str limit force env svc) = true) /\
  (forall (force : bool) (env : TickerEnv),
     (last_updated (_cache svc) <= t_now_check env)%Q ->
     fetched (get_ticker_price float_of_str force env svc) = true).
Proof.
  intros Hneg.
  assert (Hstale : forall now : Q,
            (last_updated (_cache svc) <= now)%Q -> is_stale (_cache svc) now = true).
  { intros now Hnow. unfold is_stale. apply Qltb_lt.
    assert (inject_Z (ttl_seconds (_cache svc)) < 0)%Q
      by (change 0%Q with (inject_Z 0); by rewrite <- Zlt_Qlt).
    lra. }
  split.
  - intros limit force env Hnow. rewrite get_klines_fetched. unfold klines_hit.
    by rewrite (Hstale _ Hnow), andb_false_r.
  - intros force env Hnow. rewrite get_ticker_price_fetched. unfold ticker_hit.
    by rewrite (Hstale _ Hnow), andb_false_r.
Qed.

(** X13. A candle fetch makes the cached quote fresh again, however old it is:
    after [get_klines] has fetched and cached a sequence, [get_ticker_price]
    without [force_refresh], at a clock reading at most the TTL past the
    update of the candles, returns the price that was cached before, and
    sends nothing to the exchange.  The same holds with the two getters
    exchanged. *)
Theorem fetch_of_one_entry_refreshes_the_other
  (svc : MarketDataService) :
  (forall (limit : Z) (force : bool) (env : KlinesEnv) (cs : list Candle)
          (p : float) (env' : TickerEnv),
     let o := get_klines int_of_str float_of_str limit force env svc in
     fetched o = true -> value_of o = Ok cs ->
     ticker_price (_cache svc) = Some p -> float_truthy p = true ->
     (t_now_check env' - k_now_update env <= inject_Z (ttl_seconds (_cache svc)))%Q ->
     get_ticker_price float_of_str false env' (state_of o)
     = (Ok p, state_of o, [])) /\
  (forall (force : bool) (env : TickerEnv) (p : float) (limit' : Z)
          (env' : KlinesEnv),
     let o := get_ticker_price float_of_str force env svc in
     fetched o = true -> value_of o = Ok p ->
     candles (_cache svc) <> [] ->
     (k_now_check env' - t_now_update env <= inject_Z (ttl_seconds (_cache svc)))%Q ->
     get_klines int_of_str float_of_str limit' false env' (state_of o)
     = (Ok (candles (_cache svc)), state_of o, [])).
Proof.
  split.
  - intros limit force env cs p env' o Hf Hv Hp Htrue Hfresh.
    destruct (get_klines_fetch_inv _ _ limit force env svc cs Hf Hv)
      as (raw & _ & _ & _ & Hst).
    subst o. rewrite Hst.
    assert (Hhit : ticker_hit
              (with_cache svc (update_candles (_cache svc) cs (k_now_update env)))
              false (t_now_check env') = true).
    { unfold ticker_hit, is_stale.
      cbn [_cache with_cache update_candles last_updated ttl_seconds ticker_price].
      apply Qltb_ge in Hfresh. rewrite Hfresh, Hp. cbn [price_truthy].
      by rewrite Htrue. }
    destruct (get_ticker_price_hit float_of_str false env' _ Hhit)
      as (p' & Hp' & ->).
    cbn [_cache with_cache update_candles ticker_price] in Hp'. congruence.
  - intros force env p limit' env' o Hf Hv Hne Hfresh.
    destruct (get_ticker_price_fetch_inv _ force env svc p Hf Hv)
      as (data & v & _ & _ & _ & _ & Hst).
    subst o. rewrite Hst. rewrite get_klines_cases.
    unfold klines_hit, is_stale.
    cbn [_cache with_cache update_ticker last_updated ttl_seconds candles].
    apply Qltb_ge in Hfresh. rewrite Hfresh.
    by destruct (candles (_cache svc)).
Qed.

End CacheMore.

(** ** [SimpleSignalStrategy]: totality, the window and NaN *)

Section SignalEngineMore.

Variable py_sum : list float -> float.

(** The last [n] elements of a list are those of any suffix that has [n]. *)
Lemma last_n_app {A} (n : nat) (older recent : list A) :
  (n <= length recent)%nat -> last_n n (older ++ recent) = last_n n recent.
Proof.
  intros Hn. unfold last_n. rewrite rev_app_distr.
  rewrite firstn_app, length_rev.
  replace (n - length recent)%nat with 0%nat by lia.
  by rewrite firstn_O, app_nil_r.
Qed.

Lemma engine_never_raises
  (period : Z) (self : SimpleSignalStrategy) (candles : list Candle) :
  init period = Ok self ->
  (exists ma : option float, compute_ma py_sum self candles = Ok ma) /\
  (exists signal : Signal, generate py_sum self candles = Ok signal).
Proof.
  unfold init. destruct (Z.ltb_spec period 2) as [|Hp]; [done|].
  intros [= <-].
  destruct (Z.lt_ge_cases (Z.of_nat (length candles)) period) as [Hshort|Hlong].
  - split.
    + exists None. by apply compute_ma_short.
    + exists HOLD. unfold generate. destruct candles; [done|].
      by rewrite compute_ma_short.
  - assert (Hma := compute_ma_mean py_sum {| ma_period := period |} candles).
    cbn [ma_period] in Hma. specialize (Hma ltac:(lia)).
    split; [by eexists|].
    unfold generate. rewrite Hma.
    destruct candles as [|c0 rest] eqn:Hc; [simpl in Hlong; lia|].
    rewrite <- Hc.
    destruct (last candles) as [c|] eqn:Hlast; cycle 1.
    { apply last_None in Hlast. congruence. }
    assert (Htruthy : negb (list_truthy candles) = false) by by rewrite Hc.
    rewrite Htruthy. cbn [mbind result_bind].
    rewrite (index_minus_one _ _ Hlast). cbn [mbind result_bind].
    destruct (fgt _ _); [by eexists|]. destruct (flt _ _); by eexists.
Qed.

(** X14. A strategy built by [__init__] never raises: for every candle sequence
    [compute_ma] returns a mean or [None] and [generate] returns a signal. *)
Theorem signal_engine_never_raises
  (period : Z) (self : SimpleSignalStrategy) (candles : list Candle) :
  init period = Ok self ->
  (exists ma : option float, compute_ma py_sum self candles = Ok ma) /\
  (exists signal : Signal, generate py_sum self candles = Ok signal).
Proof. apply engine_never_raises. Qed.

(** X15. Only the window counts: candles older than the last [ma_period] ones
    change neither the moving average nor the signal. *)
Theorem older_candles_do_not_matter
  (self : SimpleSignalStrategy) (older recent : list Candle) :
  2 <= ma_period self <= Z.of_nat (length recent) ->
  compute_ma py_sum self (older ++ recent) = compute_ma py_sum self recent /\
  generate py_sum self (older ++ recent) = generate py_sum self recent.
Proof.
  intros Hp.
  assert (Hma : compute_ma py_sum self (older ++ recent)
                = compute_ma py_sum self recent).
  { rewrite !compute_ma_mean by (rewrite ?length_app; lia).
    unfold mean_close_of_last. by rewrite last_n_app by lia. }
  split; [done|]. unfold generate. rewrite Hma.
  destruct recent as [|c0 rest] eqn:Hr; [simpl in Hp; lia|]. rewrite <- Hr.
  assert (Ht1 : list_truthy (older ++ recent) = true)
    by (rewrite Hr; by destruct older).
  assert (Ht2 : list_truthy recent = true) by by rewrite Hr.
  rewrite Ht1, Ht2. cbn [negb].
  destruct (last recent) as [c|] eqn:Hlast; cycle 1.
  { apply last_None in Hlast. congruence. }
  assert (Hlast' : last (older ++ recent) = Some c).
  { rewrite Hr in Hlast |- *. by rewrite last_app_cons, <- Hlast. }
  destruct (compute_ma py_sum self recent) as [[ma|]|]; [|done..].
  cbn [mbind result_bind].
  by rewrite (index_minus_one _ _ Hlast), (index_minus_one _ _ Hlast').
Qed.

(** X16. NaN is indecision: with enough history, when the last close or the
    moving average is NaN the signal is HOLD. *)
Theorem nan_gives_hold
  (self : SimpleSignalStrategy) (candles : list Candle) (c : Candle) :
  2 <= ma_period self <= Z.of_nat (length candles) ->
  last candles = Some c ->
  close c = S754_nan \/
  mean_close_of_last py_sum (ma_period self) candles = S754_nan ->
  generate py_sum self candles = Ok HOLD.
Proof.
  intros Hp Hlast Hnan. unfold generate.
  rewrite compute_ma_mean by done.
  destruct candles as [|c0 rest] eqn:Hc; [done|]. rewrite <- Hc in *.
  assert (Ht : list_truthy candles = true) by by rewrite Hc.
  rewrite Ht. cbn [negb mbind result_bind].
  rewrite (index_minus_one _ _ Hlast). cbn [mbind result_bind].
  unfold fgt, flt, SFltb.
  destruct Hnan as [-> | ->]; [|by destruct (close c)].
  by destruct (mean_close_of_last _ _ _).
Qed.

End SignalEngineMore.

(** ** [BinanceClient]: the requests that are sent *)

Import Client.

Section Requests.

(** X17. A start or end time of zero is dropped like a missing one: the query of
    [get_klines] carries [startTime] exactly when a non-zero start time is
    given, and the request for a zero time is the request without it. *)
Theorem zero_time_is_dropped_from_klines_query
  (symbol interval : string) (limit : Z) (start_time end_time : option Z) :
  let r := get_klines_request symbol interval limit start_time end_time in
  (forall t : Z, params r !! "startTime" = Some (PInt t)
                 <-> start_time = Some t /\ t <> 0) /\
  (forall t : Z, params r !! "endTime" = Some (PInt t)
                 <-> end_time = Some t /\ t <> 0) /\
  get_klines_request symbol interval limit (Some 0) end_time
  = get_klines_request symbol interval limit None end_time /\
  get_klines_request symbol interval limit start_time (Some 0)
  = get_klines_request symbol interval limit start_time None /\
  params r !! "symbol" = Some (PStr symbol) /\
  params r !! "interval" = Some (PStr interval) /\
  params r !! "limit" = Some (PInt limit).
Proof.
  intros r. subst r. unfold get_klines_request, time_truthy.
  cbn [params].
  destruct start_time as [ts|], end_time as [te|];
    try destruct (Z.eqb_spec ts 0); try destruct (Z.eqb_spec te 0);
    cbn [negb]; subst; split_and!; try done;
    try (intros t; simplify_map_eq; split; [intros [= <-] | intros [[= <-] ?]]; done);
    try (intros t; simplify_map_eq; split; [done | by intros [? ?]]);
    by simplify_map_eq.
Qed.

(** X18. A market order names exactly one amount: the query carries
    [quoteOrderQty] when a quote quantity is given, zero included, and
    [quantity] otherwise, never both; it is a signed POST of type MARKET. *)
Theorem market_order_query_names_one_amount
  (symbol side : string) (quantity : float) (quote_order_qty : option float) :
  let r := place_market_order_request symbol side quantity quote_order_qty in
  method r = "POST" /\ endpoint r = "/v3/order" /\ signed r = true /\
  params r !! "symbol" = Some (PStr symbol) /\
  params r !! "side" = Some (PStr side) /\
  params r !! "type" = Some (PStr "MARKET") /\
  params r !! "quoteOrderQty" = PFloat <$> quote_order_qty /\
  params r !! "quantity"
  = match quote_order_qty with
    | Some _ => None
    | None => Some (PFloat quantity)
    end.
Proof.
  intros r. subst r. unfold place_market_order_request. cbn [method endpoint signed params].
  destruct quote_order_qty; split_and!; by simplify_map_eq.
Qed.

(** X19. What [execute] sends to the exchange: signed requests only, the
    open-orders query for the symbol of the manager and market orders for its
    symbol and its position size, given as [quantity] and never as
    [quoteOrderQty]. *)
Theorem execute_sends_fixed_size_market_orders
  (signal : Signal) (env : ExecEnv) (om : OrderManager) (call : effect) :
  In call (trace_of (execute signal env om)) ->
  exists r : request,
    request_of call = Some r /\ signed r = true /\
    params r !! "symbol" = Some (PStr (Execution.symbol om)) /\
    (r = get_open_orders_request (Execution.symbol om) \/
     (method r = "POST" /\
      params r !! "type" = Some (PStr "MARKET") /\
      params r !! "side" = Some (PStr (side_of signal)) /\
      params r !! "quantity" = Some (PFloat (position_size om)) /\
      params r !! "quoteOrderQty" = None)).
Proof.
  rewrite execute_cases.
  assert (Hquery : exists r : request,
            request_of (CallGetOpenOrders (Execution.symbol om)) = Some r /\
            signed r = true /\
            params r !! "symbol" = Some (PStr (Execution.symbol om)) /\
            (r = get_open_orders_request (Execution.symbol om) \/
             (method r = "POST" /\
              params r !! "type" = Some (PStr "MARKET") /\
              params r !! "side" = Some (PStr (side_of signal)) /\
              params r !! "quantity" = Some (PFloat (position_size om)) /\
              params r !! "quoteOrderQty" = None))).
  { eexists. split; [reflexivity|]. split_and!; [done | by simplify_map_eq | by left]. }
  assert (Horder : exists r : request,
            request_of (CallPlaceMarketOrder (Execution.symbol om) (side_of signal)
                          (position_size om)) = Some r /\
            signed r = true /\
            params r !! "symbol" = Some (PStr (Execution.symbol om)) /\
            (r = get_open_orders_request (Execution.symbol om) \/
             (method r = "POST" /\
              params r !! "type" = Some (PStr "MARKET") /\
              params r !! "side" = Some (PStr (side_of signal)) /\
              params r !! "quantity" = Some (PFloat (position_size om)) /\
              params r !! "quoteOrderQty" = None))).
  { eexists. split; [reflexivity|].
    split_and!; [done | by simplify_map_eq |].
    right. split_and!; by simplify_map_eq. }
  case_bool_decide as Hsig; [by intros []|]. cbn zeta.
  destruct (reports_open_orders env); [by intros [<-|[]]|].
  destruct (cooling_down om (side_of signal) (now_cooldown env));
    [by intros [<-|[]]|].
  destruct (place_reply env); by intros [<-|[<-|[]]].
Qed.

End Requests.

(** ** [get_klines_and_ticker]: the two getters as tasks *)

Import Gather.

Section GatherProps.

Variable int_of_str : string -> result Z.
Variable float_of_str : string -> result float.
Variable limit : Z.
Variable force : bool.
Variable kenv : KlinesEnv.
Variable tenv : TickerEnv.

Local Abbreviation step := (Gather.step int_of_str float_of_str limit force kenv tenv).
Local Abbreviation run := (Gather.run int_of_str float_of_str limit force kenv tenv).
Local Abbreviation resume_klines := (Gather.resume_klines int_of_str float_of_str limit force kenv).
Local Abbreviation resume_ticker := (Gather.resume_ticker float_of_str force tenv).

Lemma gather_run_app (a b : list turn) (s : system) : run (a ++ b) s = run b (run a s).
Proof. apply fold_left_app. Qed.

Lemma gather_run_cons (w : turn) (rest : list turn) (s : system) :
  run (w :: rest) s = run rest (step s w).
Proof. reflexivity. Qed.

Lemma gather_run_raised (sched : list turn) (s : system) (e : exn) :
  g_raised s = Some e -> run sched s = s.
Proof.
  intros Hr. induction sched as [|w rest IH]; [done|].
  rewrite gather_run_cons. unfold Gather.step. by rewrite Hr.
Qed.

Lemma resume_klines_turns (t : klines_task) (svc : MarketDataService) :
  (turns_left_klines (resume_klines t svc).1.1 <= pred (turns_left_klines t))%nat.
Proof.
  destruct t as [| |cs|r]; cbn [Gather.resume_klines turns_left_klines].
  - destruct (klines_hit _ _ _); cbn; lia.
  - destruct (k_reply kenv) as [raw|]; [|cbn; lia].
    destruct (decode_all _ _ raw); cbn; lia.
  - cbn; lia.
  - cbn; lia.
Qed.

Lemma resume_ticker_turns (t : ticker_task) (svc : MarketDataService) :
  (turns_left_ticker (resume_ticker t svc).1.1 <= pred (turns_left_ticker t))%nat.
Proof.
  destruct t as [| |r]; cbn [Gather.resume_ticker turns_left_ticker].
  - destruct (ticker_price _); [destruct (ticker_hit _ _ _)|]; cbn; lia.
  - destruct (t_reply tenv) as [data|]; [|cbn; lia].
    destruct (_ ≫= _); cbn; lia.
  - cbn; lia.
Qed.

Lemma step_klines_settles (n m : nat) (s : system) :
  settles_within (S n) m s -> settles_within n m (step s KlinesTurn).
Proof.
  intros [Hr|[Hk Ht]]; unfold Gather.step.
  - destruct (g_raised s) eqn:Hr'; [left; by rewrite Hr' | done].
  - destruct (g_raised s) eqn:Hr; [left; by rewrite Hr|].
    pose proof (resume_klines_turns (g_klines s) (g_service s)) as Hturns.
    destruct (resume_klines (g_klines s) (g_service s)) as [[t svc] eff].
    right. cbn [g_klines g_ticker fst] in *. lia.
Qed.

Lemma step_ticker_settles (n m : nat) (s : system) :
  settles_within n (S m) s -> settles_within n m (step s TickerTurn).
Proof.
  intros [Hr|[Hk Ht]]; unfold Gather.step.
  - destruct (g_raised s) eqn:Hr'; [left; by rewrite Hr' | done].
  - destruct (g_raised s) eqn:Hr; [left; by rewrite Hr|].
    pose proof (resume_ticker_turns (g_ticker s) (g_service s)) as Hturns.
    destruct (resume_ticker (g_ticker s) (g_service s)) as [[t svc] eff].
    right. cbn [g_klines g_ticker fst] in *. lia.
Qed.

Lemma completion_settles (s : system) :
  gathered (run completion s) <> None.
Proof.
  assert (H0 : settles_within 3 2 s).
  { right. destruct (g_klines s), (g_ticker s); cbn; lia. }
  assert (H : settles_within 0 0 (run completion s)).
  { unfold completion, Gather.run. cbn [fold_left].
    by do 2 apply step_ticker_settles; do 3 apply step_klines_settles. }
  unfold gathered. destruct H as [Hr|[Hk Ht]].
  - by destruct (g_raised _).
  - destruct (g_raised _); [done|].
    destruct (g_klines _); cbn in Hk; try lia.
    destruct (g_ticker _); cbn in Ht; try lia. done.
Qed.



(** One turn, on a system where [gather] has not raised. *)
Lemma step_klines_eq (s : system) :
  g_raised s = None ->
  step s KlinesTurn
  = let '(t, svc, eff) := resume_klines (g_klines s) (g_service s) in
    {| g_service := svc; g_klines := t; g_ticker := g_ticker s;
       g_raised := match t with KFinished r => raised r | _ => None end;
       g_log := g_log s ++ eff |}.
Proof. intros Hr. unfold Gather.step. by rewrite Hr. Qed.

Lemma step_ticker_eq (s : system) :
  g_raised s = None ->
  step s TickerTurn
  = let '(t, svc, eff) := resume_ticker (g_ticker s) (g_service s) in
    {| g_service := svc; g_klines := g_klines s; g_ticker := t;
       g_raised := match t with TFinished r => raised r | _ => None end;
       g_log := g_log s ++ eff |}.
Proof. intros Hr. unfold Gather.step. by rewrite Hr. Qed.

(** *** A fresh cache *)

Lemma step_served_from_cache (svc : MarketDataService) (p : float) (s : system) (w : turn) :
  klines_hit svc force (k_now_check kenv) = true ->
  ticker_hit svc force (t_now_check tenv) = true ->
  ticker_price (_cache svc) = Some p ->
  served_from_cache svc p s -> served_from_cache svc p (step s w).
Proof.
  intros Hk Ht Hp (Hsvc & Hlog & Hr & Hkt & Htt). destruct w.
  - rewrite step_klines_eq by done. rewrite Hsvc, Hlog.
    destruct Hkt as [-> | ->]; cbn [Gather.resume_klines]; [rewrite Hk|];
      (split_and!; [done..|by right|done]).
  - rewrite step_ticker_eq by done. rewrite Hsvc, Hlog.
    destruct Htt as [-> | ->]; cbn [Gather.resume_ticker]; [rewrite Hp, Ht|];
      (split_and!; [done..|by right]).
Qed.

Lemma run_served_from_cache (svc : MarketDataService) (p : float) (sched : list turn) :
  klines_hit svc force (k_now_check kenv) = true ->
  ticker_hit svc force (t_now_check tenv) = true ->
  ticker_price (_cache svc) = Some p ->
  forall s, served_from_cache svc p s -> served_from_cache svc p (run sched s).
Proof.
  intros Hk Ht Hp. induction sched as [|w rest IH]; intros s Hs; [done|].
  rewrite gather_run_cons. apply IH. by apply step_served_from_cache.
Qed.

(** X21. On a cache that serves both getters, [get_klines_and_ticker] returns
    the cached candles and the cached price, sends nothing to the exchange
    and changes nothing, whatever the order of the turns. *)
Theorem gather_on_fresh_cache_calls_nothing
  (svc : MarketDataService) (schedule : list turn) :
  klines_hit svc force (k_now_check kenv) = true ->
  ticker_hit svc force (t_now_check tenv) = true ->
  exists p : float,
    ticker_price (_cache svc) = Some p /\
    get_klines_and_ticker int_of_str float_of_str limit force kenv tenv schedule svc
    = (Some (Ok (candles (_cache svc), p)), svc, []).
Proof.
  intros Hk Ht.
  destruct (ticker_price (_cache svc)) as [p|] eqn:Hp; cycle 1.
  { unfold ticker_hit in Ht. rewrite Hp in Ht. by rewrite andb_false_r in Ht. }
  exists p. split; [done|].
  assert (Hend : served_from_cache svc p (run (schedule ++ completion) (Gather.start svc))).
  { apply run_served_from_cache; try done. by split_and!; try left. }
  pose proof (completion_settles (run schedule (Gather.start svc))) as Hsettled.
  rewrite <- gather_run_app in Hsettled.
  unfold get_klines_and_ticker.
  destruct Hend as (Hsvc & Hlog & Hr & Hkt & Htt).
  rewrite Hsvc, Hlog. f_equal. f_equal.
  unfold gathered in *. rewrite Hr in *.
  destruct Hkt as [Hkt | Hkt]; rewrite Hkt in Hsettled |- *; [done|].
  destruct Htt as [Htt | Htt]; rewrite Htt in Hsettled |- *; done.
Qed.

(** *** Both checks before the first reply *)

Lemma later_turns_call_nothing (sched : list turn) :
  forall s : system,
    g_klines s <> KCreated -> g_ticker s <> TCreated ->
    exchange_calls (g_log (run sched s)) = exchange_calls (g_log s).
Proof.
  induction sched as [|w rest IH]; intros s Hk Ht; [done|].
  rewrite gather_run_cons.
  destruct (g_raised s) eqn:Hr.
  { unfold Gather.step. rewrite Hr. by apply IH. }
  destruct w.
  - rewrite step_klines_eq by done.
    destruct (g_klines s) as [| |cs|r] eqn:Hks; [done|..]; cbn [Gather.resume_klines].
    + destruct (k_reply kenv) as [raw|]; [destruct (decode_all _ _ raw)|];
        rewrite IH by done; cbn [g_log]; by rewrite app_nil_r.
    + rewrite IH by done. cbn [g_log]. unfold exchange_calls.
      rewrite List.filter_app. destruct (k_disk_ok kenv); cbn; by rewrite app_nil_r.
    + rewrite IH by done; cbn [g_log]; by rewrite app_nil_r.
  - rewrite step_ticker_eq by done.
    destruct (g_ticker s) as [| |r] eqn:Hts; [done|..]; cbn [Gather.resume_ticker].
    + destruct (t_reply tenv) as [data|]; [destruct (_ ≫= _)|];
        rewrite IH by done; cbn [g_log]; by rewrite app_nil_r.
    + rewrite IH by done; cbn [g_log]; by rewrite app_nil_r.
Qed.

(** X22. When both tasks have their first turn before either has its reply (the
    order of a client that waits for the network), both decide on the cache
    as it was before the call: the exchange calls made are those that each
    getter makes on that cache, in the order klines, ticker.  So a stale
    quote is fetched even though the candle fetch of the same call refreshes
    the capture time. *)
Theorem overlapping_getters_decide_on_the_same_cache
  (svc : MarketDataService) (rest : list turn) :
  let o := get_klines_and_ticker int_of_str float_of_str limit force kenv tenv
             (KlinesTurn :: TickerTurn :: rest) svc in
  exchange_calls o.2
  = (if klines_hit svc force (k_now_check kenv) then []
     else [CallGetKlines (MarketData.symbol svc) (timeframe svc) limit])
    ++ (if ticker_hit svc force (t_now_check tenv) then []
        else [CallGetTickerPrice (MarketData.symbol svc)]).
Proof.
  intros o. subst o. unfold get_klines_and_ticker. cbn [snd].
  cbn [app]. rewrite !gather_run_cons.
  rewrite step_klines_eq by done. cbn [Gather.start g_klines g_service g_ticker g_log Gather.resume_klines].
  destruct (klines_hit svc force (k_now_check kenv)) eqn:Hk.
  - rewrite step_ticker_eq by done. cbn [g_klines g_service g_ticker g_log Gather.resume_ticker].
    unfold ticker_hit at 2. unfold ticker_hit.
    destruct (ticker_price (_cache svc)) as [p|] eqn:Hp; cbn [price_truthy];
      [destruct (_ && _ && _) eqn:Ht|rewrite andb_false_r];
      by rewrite later_turns_call_nothing.
  - rewrite step_ticker_eq by done. cbn [g_klines g_service g_ticker g_log Gather.resume_ticker].
    unfold ticker_hit at 2. unfold ticker_hit.
    destruct (ticker_price (_cache svc)) as [p|] eqn:Hp; cbn [price_truthy];
      [destruct (_ && _ && _) eqn:Ht|rewrite andb_false_r];
      by rewrite later_turns_call_nothing.
Qed.


(** *** An empty cache *)

Local Abbreviation ek := (klines_of_reply int_of_str float_of_str kenv).
Local Abbreviation et := (price_of_reply float_of_str tenv).
Local Abbreviation follows_replies :=
  (Gather.follows_replies int_of_str float_of_str kenv tenv).

#[local] Ltac simpl_system :=
  cbn [g_service g_klines g_ticker g_raised g_log raised _cache with_cache
       update_candles update_ticker candles ticker_price] in *.

Lemma step_follows_replies (s : system) (w : turn) :
  follows_replies s -> follows_replies (step s w).
Proof.
  intros Hs. destruct (g_raised s) eqn:Hr.
  { unfold Gather.step. by rewrite Hr. }
  revert Hs. unfold Gather.follows_replies, Gather.klines_of_reply, Gather.price_of_reply.
  intros (Hkc & Htc & Hkw & Hkf & Htf & Hraised). destruct w.
  - rewrite step_klines_eq by done.
    destruct (g_klines s) as [| |cs|r] eqn:Hks; cbn [Gather.resume_klines].
    + unfold klines_hit. rewrite (Hkc eq_refl), andb_false_r. simpl_system.
      by split_and!.
    + destruct (k_reply kenv) as [raw|msg resp];
        cbn [outcome_of_reply mbind result_bind] in *;
        [destruct (decode_all _ _ raw) as [cs|e] eqn:Hdec|];
        simpl_system; split_and!; try done.
      * intros cs' [= <-]. by split.
      * intros r [= <-]. by split.
      * intros e' [= <-]. by left.
      * intros r [= <-]. by split.
      * intros e' [= <-]. by left.
    + destruct (Hkw cs eq_refl) as [Hek Hcs]. simpl_system.
      split_and!; try done.
      intros r [= <-]. split; [done|]. by intros cs' [= <-].
    + destruct (Hkf r eq_refl) as [-> Hcs]. simpl_system.
      split_and!; try done.
      intros e' He'. left.
      by destruct (_ ≫= _); simpl_system; [|injection He' as ->].
  - rewrite step_ticker_eq by done.
    destruct (g_ticker s) as [| |r] eqn:Hts; cbn [Gather.resume_ticker].
    + specialize (Htc eq_refl). unfold ticker_hit. rewrite Htc, andb_false_r.
      destruct (ticker_price _); simpl_system; by split_and!.
    + destruct (t_reply tenv) as [data|msg resp];
        cbn [outcome_of_reply mbind result_bind] in *;
        [destruct (getitem data "price" ≫= _) as [p|e] eqn:Hp|];
        simpl_system; split_and!; try done.
      * intros r [= <-]. split; [done|]. by intros p' [= <-].
      * intros r [= <-]. by split.
      * intros e' [= <-]. by right.
      * intros r [= <-]. by split.
      * intros e' [= <-]. by right.
    + destruct (Htf r eq_refl) as [-> Hpr]. simpl_system.
      split_and!; try done.
      intros e' He'. right.
      by destruct (_ ≫= _); simpl_system; [|injection He' as ->].
Qed.

Lemma run_follows_replies (sched : list turn) :
  forall s : system, follows_replies s -> follows_replies (run sched s).
Proof.
  induction sched as [|w rest IH]; intros s Hs; [done|].
  rewrite gather_run_cons. apply IH. by apply step_follows_replies.
Qed.

Lemma gather_empty_cache
  (svc : MarketDataService) (schedule : list turn) :
  candles (_cache svc) = [] ->
  price_truthy (ticker_price (_cache svc)) = false ->
  let o := get_klines_and_ticker int_of_str float_of_str limit force kenv tenv
             schedule svc in
  exists x : result (list Candle * float),
    o.1.1 = Some x /\
    (forall cs p, ek = Ok cs -> et = Ok p ->
       x = Ok (cs, p) /\
       candles (_cache o.1.2) = cs /\ ticker_price (_cache o.1.2) = Some p) /\
    (forall cs p, x = Ok (cs, p) -> ek = Ok cs /\ et = Ok p) /\
    (forall e, x = Raise e -> ek = Raise e \/ et = Raise e).
Proof.
  intros Hc Hp o. subst o. unfold get_klines_and_ticker. cbn [fst snd].
  assert (Hend : follows_replies (run (schedule ++ completion) (Gather.start svc))).
  { apply run_follows_replies. by split_and!. }
  pose proof (completion_settles (run schedule (Gather.start svc))) as Hsettled.
  rewrite <- gather_run_app in Hsettled.
  destruct Hend as (_ & _ & _ & Hkf & Htf & Hraised).
  unfold gathered in *.
  destruct (g_raised _) as [e|] eqn:Hr.
  - exists (Raise e). split; [done|]. destruct (Hraised e eq_refl) as [He|He].
    + split; [intros cs p; by rewrite He|]. split; [done|].
      intros e' [= <-]. by left.
    + split; [intros cs p; by rewrite He|]. split; [done|].
      intros e' [= <-]. by right.
  - destruct (g_klines _) as [| | |rk]; try done.
    destruct (g_ticker _) as [| |rt]; try done.
    destruct (Hkf rk eq_refl) as [Hrk Hcs], (Htf rt eq_refl) as [Hrt Hpr].
    eexists. split; [reflexivity|]. split; [|split].
    + intros cs p Hek Het. rewrite Hrk, Hrt, Hek, Het.
      split; [done|]. split; [apply Hcs; congruence | apply Hpr; congruence].
    + intros cs p. rewrite Hrk, Hrt. destruct ek; cbn [mbind result_bind]; [|done].
      destruct et; cbn [mbind result_bind]; [|done]. by intros [= -> ->].
    + intros e. rewrite Hrk, Hrt. destruct ek; cbn [mbind result_bind].
      * destruct et; [done|]. intros [= <-]. by right.
      * intros [= <-]. by left.
Qed.


End GatherProps.

Section TasksAlone.

Variable int_of_str : string -> result Z.
Variable float_of_str : string -> result float.
Variable limit : Z.
Variable force : bool.
Variable kenv : KlinesEnv.
Variable tenv : TickerEnv.

(** X24. A task that has all its turns in a row is the getter it runs: the
    klines task ends in the value, the service and the effects of
    [get_klines], the ticker task in those of [get_ticker_price]. *)
Theorem task_alone_is_its_getter (svc : MarketDataService) :
  (let s := Gather.run int_of_str float_of_str limit force kenv tenv
              [KlinesTurn; KlinesTurn; KlinesTurn] (Gather.start svc) in
   let o := get_klines int_of_str float_of_str limit force kenv svc in
   g_klines s = KFinished (value_of o) /\ g_service s = state_of o /\
   g_log s = trace_of o /\ g_raised s = raised (value_of o)) /\
  (let s := Gather.run int_of_str float_of_str limit force kenv tenv
              [TickerTurn; TickerTurn] (Gather.start svc) in
   let o := get_ticker_price float_of_str force tenv svc in
   g_ticker s = TFinished (value_of o) /\ g_service s = state_of o /\
   g_log s = trace_of o /\ g_raised s = raised (value_of o)).
Proof.
  split.
  - intros s o. subst s o. rewrite get_klines_cases.
    unfold Gather.run, Gather.step. cbn [fold_left Gather.start g_raised g_klines
      g_service g_ticker g_log Gather.resume_klines].
    destruct (klines_hit svc force (k_now_check kenv)); [done|].
    cbn [g_raised g_klines g_service g_ticker g_log Gather.resume_klines raised].
    cbn zeta.
    destruct (k_reply kenv) as [raw|msg resp]; [|done].
    destruct (decode_all _ _ raw) as [cs|e]; [|done].
    cbn [g_raised g_klines g_service g_ticker g_log Gather.resume_klines raised
         value_of state_of trace_of fst snd].
    by destruct (k_disk_ok kenv).
  - intros s o. subst s o.
    unfold Gather.run, Gather.step. cbn [fold_left Gather.start g_raised g_klines
      g_service g_ticker g_log Gather.resume_ticker].
    destruct (ticker_hit svc force (t_now_check tenv)) eqn:Hhit.
    + destruct (get_ticker_price_hit float_of_str force tenv svc Hhit)
        as (p & Hp & ->).
      rewrite Hp. done.
    + rewrite get_ticker_price_miss by done. cbn zeta.
      assert (Hfirst :
        match ticker_price (_cache svc) with
        | Some cached => (TAwaitingReply, svc, [CallGetTickerPrice (MarketData.symbol svc)])
        | None => (TAwaitingReply, svc, [CallGetTickerPrice (MarketData.symbol svc)])
        end = (TAwaitingReply, svc, [CallGetTickerPrice (MarketData.symbol svc)]))
        by (by destruct (ticker_price (_cache svc))).
      rewrite Hfirst.
      cbn [g_raised g_klines g_service g_ticker g_log Gather.resume_ticker raised].
      destruct (t_reply tenv) as [data|msg resp]; [|done].
      by destruct (_ ≫= _).
Qed.

End TasksAlone.

(** ** The pipeline and the command *)

Import Cli.

Section PipelineProps.

Variable py_sum : list float -> float.
Variable int_of_str : string -> result Z.
Variable float_of_str : string -> result float.

Local Abbreviation run_pipeline := (Cli.run_pipeline py_sum int_of_str float_of_str).
Local Abbreviation pipeline_body := (Cli.pipeline_body py_sum int_of_str float_of_str).

(** The tasks of the getters send nothing with a signature. *)
Lemma gather_log_unsigned limit force kenv tenv (sched : list turn) :
  forall s : system,
    List.filter is_signed_call (map Core (g_log s)) = [] ->
    List.filter is_signed_call
      (map Core (g_log (Gather.run int_of_str float_of_str limit force kenv tenv sched s)))
    = [].
Proof.
  induction sched as [|w rest IH]; intros s Hs; [done|].
  rewrite gather_run_cons. apply IH.
  destruct (g_raised s) eqn:Hr.
  { unfold Gather.step. by rewrite Hr. }
  destruct w.
  - rewrite step_klines_eq by done.
    destruct (g_klines s) as [| |cs|r]; cbn [Gather.resume_klines].
    + destruct (klines_hit _ _ _); cbn [g_log];
        rewrite map_app, List.filter_app, Hs; done.
    + destruct (k_reply kenv) as [raw|]; [destruct (decode_all _ _ raw)|];
        cbn [g_log]; rewrite map_app, List.filter_app, Hs; done.
    + cbn [g_log]. rewrite map_app, List.filter_app, Hs.
      by destruct (k_disk_ok kenv).
    + cbn [g_log]. rewrite map_app, List.filter_app, Hs. done.
  - rewrite step_ticker_eq by done.
    destruct (g_ticker s) as [| |r]; cbn [Gather.resume_ticker].
    + destruct (ticker_price _); [destruct (ticker_hit _ _ _)|];
        cbn [g_log]; rewrite map_app, List.filter_app, Hs; done.
    + destruct (t_reply tenv) as [data|]; [destruct (_ ≫= _)|];
        cbn [g_log]; rewrite map_app, List.filter_app, Hs; done.
    + cbn [g_log]. rewrite map_app, List.filter_app, Hs. done.
Qed.

Lemma gather_trace_unsigned limit force kenv tenv sched svc :
  List.filter is_signed_call
    (map Core (get_klines_and_ticker int_of_str float_of_str limit force kenv tenv sched svc).2)
  = [].
Proof. unfold get_klines_and_ticker. cbn [snd]. by apply gather_log_unsigned. Qed.



(** X26. A ping that fails makes the run raise the client error, with the message
    and without the response, after the ping alone and the closing of the
    client.  The exit code 1 is returned only when the exchange answered the
    request for candles with an empty list. *)
Theorem failed_ping_raises_and_exit_one_means_no_candles
  (config : Settings.Config) (dry_run : bool) (env : PipelineEnv) :
  (forall msg resp,
     ping_reply env = ClientError msg resp ->
     run_pipeline config dry_run env
     = (Some (Raise (BinanceClientError msg None)), [Ping; CloseClient])) /\
  ((run_pipeline config dry_run env).1 = Some (Ok 1) ->
   klines_of_reply int_of_str float_of_str (p_klines env) = Ok []).
Proof.
  split.
  - intros msg resp Hping. unfold Cli.run_pipeline, Cli.pipeline_body.
    by rewrite Hping.
  - unfold Cli.run_pipeline, Cli.pipeline_body.
    destruct (ping (ping_reply env)) as [[|]|e] eqn:Hping; cbn [negb];
      [|by destruct (ping_reply env)|done].
    destruct (gather_empty_cache int_of_str float_of_str 100 false
                (p_klines env) (p_ticker env)
                (new_service (Settings.symbol config) (Settings.timeframe config)
                   (Settings.data_cache_ttl_seconds config) None)
                (p_schedule env) eq_refl eq_refl)
      as (x & Hx & _ & Hok & _).
    destruct (get_klines_and_ticker _ _ _ _ _ _ _ _) as [[both svc] t].
    cbn [fst] in Hx. subst both. destruct x as [[cs p]|e]; [|done].
    destruct (Hok cs p eq_refl) as [Hek _].
    destruct cs as [|c cs']; [done|]. cbn [list_truthy negb].
    destruct (_ ≫= _) as [signal|e]; [|done].
    case_bool_decide; [done|]. destruct dry_run; [done|].
    by destruct (value_of _).
Qed.

(** X27. A run with [dry_run] set sends no signed request: neither the query for
    open orders nor an order. *)
Theorem dry_run_sends_nothing_signed
  (config : Settings.Config) (env : PipelineEnv) :
  List.filter is_signed_call (run_pipeline config true env).2 = [].
Proof.
  unfold Cli.run_pipeline, Cli.pipeline_body.
  destruct (ping (ping_reply env)) as [[|]|e]; cbn [negb]; [|done..].
  pose proof (gather_trace_unsigned 100 false (p_klines env) (p_ticker env)
    (p_schedule env)
    (new_service (Settings.symbol config) (Settings.timeframe config)
       (Settings.data_cache_ttl_seconds config) None)) as Hunsigned.
  destruct (get_klines_and_ticker _ _ _ _ _ _ _ _) as [[both svc] t].
  cbn [snd] in Hunsigned.
  assert (Hev : List.filter is_signed_call ((Ping :: map Core t) ++ [CloseClient]) = []).
  { rewrite List.filter_app. cbn [List.filter is_signed_call]. by rewrite Hunsigned. }
  assert (Hev' : List.filter is_signed_call (Ping :: map Core t) = []).
  { cbn [List.filter is_signed_call]. by rewrite Hunsigned. }
  destruct both as [[[cs p]|e]|]; [|done..].
  destruct (list_truthy cs); cbn [negb]; [|done].
  destruct (_ ≫= _) as [signal|e]; [|done].
  by case_bool_decide.
Qed.

(** X28. A live run whose signal is not HOLD builds a new order manager, whose
    cooldown table is empty: when no order is open and the clock reads at
    least 60, it submits exactly one market order, for the configured symbol
    and size, and exits with 0 whether the exchange accepts the order or
    rejects it. *)
Theorem live_run_is_not_held_back_by_cooldown
  (config : Settings.Config) (env : PipelineEnv)
  (cs : list Candle) (p : float) (strategy : SimpleSignalStrategy)
  (signal : Signal) :
  is_answer (ping_reply env) = true ->
  klines_of_reply int_of_str float_of_str (p_klines env) = Ok cs ->
  price_of_reply float_of_str (p_ticker env) = Ok p ->
  init (Settings.ma_period config) = Ok strategy ->
  generate py_sum strategy cs = Ok signal ->
  signal <> HOLD ->
  reports_open_orders (p_exec env) = false ->
  (60 <= now_cooldown (p_exec env))%Q ->
  let o := run_pipeline config false env in
  o.1 = Some (Ok 0) /\
  List.filter is_order o.2
  = [Core (CallPlaceMarketOrder (Settings.symbol config) (side_of signal)
             (Settings.position_size config))].
Proof.
  intros Hping Hek Het Hinit Hgen Hsig Hopen Hnow o. subst o.
  unfold Cli.run_pipeline, Cli.pipeline_body.
  destruct (ping_reply env) as [d|]; [|done]. cbn [ping negb].
  destruct (gather_empty_cache int_of_str float_of_str 100 false
              (p_klines env) (p_ticker env)
              (new_service (Settings.symbol config) (Settings.timeframe config)
                 (Settings.data_cache_ttl_seconds config) None)
              (p_schedule env) eq_refl eq_refl)
    as (x & Hx & Hboth & _ & _).
  destruct (Hboth cs p Hek Het) as (-> & _ & _).
  pose proof (gather_trace_unsigned 100 false (p_klines env) (p_ticker env)
    (p_schedule env)
    (new_service (Settings.symbol config) (Settings.timeframe config)
       (Settings.data_cache_ttl_seconds config) None)) as Hunsigned.
  destruct (get_klines_and_ticker _ _ _ _ _ _ _ _) as [[both svc] t].
  cbn [fst snd] in Hx, Hunsigned. subst both.
  assert (Hne : list_truthy cs = true).
  { destruct cs; [|done]. unfold generate in Hgen. cbn in Hgen. congruence. }
  rewrite Hne. cbn [negb]. rewrite Hinit. cbn [mbind result_bind]. rewrite Hgen.
  cbn [mbind result_bind].
  destruct (engine_never_raises py_sum _ strategy cs Hinit) as [[ma ->] _].
  cbn [mbind result_bind]. rewrite bool_decide_eq_false_2 by done.
  rewrite execute_cases, bool_decide_eq_false_2 by done. cbn zeta.
  rewrite Hopen.
  assert (Hcd : cooling_down
            (new_manager (Settings.symbol config) (Settings.position_size config)
               (Settings.order_type config) 60)
            (side_of signal) (now_cooldown (p_exec env)) = false).
  { unfold cooling_down, new_manager.
    cbn [_last_order_time order_cooldown_seconds].
    rewrite lookup_empty. cbn [default]. apply Qltb_ge.
    change (inject_Z 60) with 60%Q. lra. }
  rewrite Hcd.
  assert (Horders : forall l, List.filter is_order (map Core l)
                              = map Core (submissions l)).
  { induction l as [|[] l IH]; cbn; by rewrite ?IH. }
  assert (Hnone : List.filter is_order (map Core t) = []).
  { clear -Hunsigned. induction t as [|[] t IH]; cbn in *; try done; by apply IH. }
  destruct (place_reply (p_exec env)); cbn [value_of trace_of fst snd];
    (split; [done|]);
    rewrite !List.filter_app; cbn [List.filter is_order map app];
    by rewrite Hnone.
Qed.

(** X29. The [run] command: with [--live] and a missing key or secret it exits
    with 1 and does nothing; with [--dry-run] and no [--live] it runs the
    pipeline as a dry run whatever the credentials; with neither flag it
    follows the [dry_run] of the configuration. *)
Theorem run_checks_credentials_unless_dry_run
  (config : Settings.Config) (dry_run live : bool) (env : PipelineEnv) :
  (live = true ->
   Settings.str_truthy (Settings.binance_api_key config) = false \/
   Settings.str_truthy (Settings.binance_api_secret config) = false ->
   Cli.run py_sum int_of_str float_of_str config dry_run live env
   = (Some (Ok 1), [])) /\
  (live = false -> dry_run = true ->
   Cli.run py_sum int_of_str float_of_str config dry_run live env
   = run_pipeline (Settings.with_dry_run config true) true env) /\
  (live = false -> dry_run = false -> Settings.dry_run config = true ->
   Cli.run py_sum int_of_str float_of_str config dry_run live env
   = run_pipeline config true env).
Proof.
  unfold Cli.run, Settings.validate. split_and!.
  - intros -> Hmissing. cbn [Settings.dry_run Settings.with_dry_run negb
      Settings.binance_api_key Settings.binance_api_secret].
    destruct Hmissing as [-> | ->]; cbn [negb app list_truthy]; [done|].
    by destruct (Settings.str_truthy _).
  - by intros -> ->.
  - intros -> -> Hdry. by rewrite Hdry.
Qed.

End PipelineProps.

(** ** The configuration *)

(** X30. [validate] reports nothing exactly when the configuration asks for a dry
    run or holds both a key and a secret; it never reports more than two
    errors. *)
Theorem validate_passes_iff_dry_run_or_credentials (config : Settings.Config) :
  (Settings.validate config = []
   <-> Settings.dry_run config = true \/
       (Settings.binance_api_key config <> EmptyString /\
        Settings.binance_api_secret config <> EmptyString)) /\
  (length (Settings.validate config) <= 2)%nat.
Proof.
  unfold Settings.validate.
  destruct (Settings.dry_run config), (Settings.binance_api_key config),
    (Settings.binance_api_secret config); cbn; (split; [|lia]);
    (split; [intros Hnone | intros Hcase]);
    try done; try (by left); try (by right);
    by destruct Hcase as [Hdry | [Hkey Hsecret]].
Qed.

Import Scenarios.

(** ** The further properties at concrete inputs *)

(** A LONG call sends the query, and then nothing or its BUY order. *)
Lemma execute_calls_query_then_at_most_one_order_witness :
  trace_of (execute LONG (env_accept 1000 1) om0)
  = [CallGetOpenOrders "BTCUSDT"] \/
  trace_of (execute LONG (env_accept 1000 1) om0)
  = [CallGetOpenOrders "BTCUSDT";
     CallPlaceMarketOrder "BTCUSDT" "BUY" size_0_001].
Proof.
  destruct (execute_calls_query_then_at_most_one_order LONG (env_accept 1000 1)
              om0) as (_ & Hcalls & _).
  apply Hcalls. discriminate.
Defined.

(** A LONG order accepted at 1001; the next accepted LONG order is checked
    at 1100. *)
Lemma accepted_orders_are_a_cooldown_apart_witness :
  (inject_Z (order_cooldown_seconds om0)
   <= now_cooldown (env_accept 1100 2) - inject_Z 1001)%Q.
Proof.
  apply (accepted_orders_are_a_cooldown_apart [(LONG, env_accept 1000 1)] om0
           LONG (env_accept 1100 2) (inject_Z 1001)).
  - vm_compute. reflexivity.
  - vm_compute. reflexivity.
Defined.

(** A LONG order accepted at 1001 does not hold back a SHORT call at 1010. *)
Lemma other_side_is_not_held_back_witness :
  value_of (execute SHORT (env_accept 1010 2)
              (state_of (execute LONG (env_accept 1000 1) om0)))
  = value_of (execute SHORT (env_accept 1010 2) om0) /\
  trace_of (execute SHORT (env_accept 1010 2)
              (state_of (execute LONG (env_accept 1000 1) om0)))
  = trace_of (execute SHORT (env_accept 1010 2) om0).
Proof.
  apply (other_side_is_not_held_back LONG SHORT (env_accept 1000 1)
           (env_accept 1010 2) om0).
  vm_compute. discriminate.
Defined.

(** A LONG order recorded at 1001; the next LONG call, at 1061, submits. *)
Lemma call_after_cooldown_submits_witness :
  submissions
    (trace_of (execute LONG (env_accept 1061 2)
                 (state_of (execute LONG (env_accept 1000 1) om0))))
  = [CallPlaceMarketOrder "BTCUSDT" "BUY" size_0_001].
Proof.
  apply (call_after_cooldown_submits LONG (env_accept 1000 1) (env_accept 1061 2)
           om0 (placed {[ "orderId" := JInt 1 ]})).
  - discriminate.
  - vm_compute. reflexivity.
  - reflexivity.
  - reflexivity.
  - vm_compute. discriminate.
Defined.

(** A kline of five fields is refused; what follows the sixth field of a
    kline of twelve is not read. *)
Lemma from_binance_reads_six_fields_witness :
  (exists e : exn,
     from_binance decimal_int_of_str decimal_float_of_str short_kline = Raise e) /\
  from_binance decimal_int_of_str decimal_float_of_str (kline6 ++ kline_tail)
  = from_binance decimal_int_of_str decimal_float_of_str kline6.
Proof.
  split.
  - apply (from_binance_reads_six_fields decimal_int_of_str decimal_float_of_str
             short_kline []). simpl. lia.
  - apply (from_binance_reads_six_fields decimal_int_of_str decimal_float_of_str
             kline6 kline_tail). reflexivity.
Defined.

(** A request for candles that times out leaves the new service as it
    was. *)
Lemma raising_getter_leaves_service_unchanged_witness :
  state_of (get_klines decimal_int_of_str decimal_float_of_str 100 false
              (klines_env_failing 1000) svc0) = svc0 /\
  file_writes
    (trace_of (get_klines decimal_int_of_str decimal_float_of_str 100 false
                 (klines_env_failing 1000) svc0)) = [].
Proof.
  destruct (raising_getter_leaves_service_unchanged decimal_int_of_str
              decimal_float_of_str svc0
              (BinanceClientError "Request timed out: " None)) as [Hk _].
  apply (Hk 100 false (klines_env_failing 1000)). vm_compute. reflexivity.
Defined.

(** A quote without its price, asked of a new service. *)
Lemma quote_without_price_raises_key_error_witness :
  value_of (get_ticker_price decimal_float_of_str false
              (ticker_env 1000 quote_without_price) svc0)
  = Raise (KeyError "price") /\
  state_of (get_ticker_price decimal_float_of_str false
              (ticker_env 1000 quote_without_price) svc0) = svc0.
Proof.
  apply (quote_without_price_raises_key_error decimal_float_of_str svc0 false
           (ticker_env 1000 quote_without_price) quote_without_price).
  - vm_compute. reflexivity.
  - reflexivity.
  - vm_compute. reflexivity.
Defined.

(** Candles are fetched although the file cannot be written, and the file
    is written when it can be. *)
Lemma disk_failure_is_swallowed_witness :
  value_of (get_klines decimal_int_of_str decimal_float_of_str 100 false
              (klines_env_disk_full 1000 two_klines) svc0)
  = value_of (get_klines decimal_int_of_str decimal_float_of_str 100 false
                (klines_env 1000 two_klines) svc0) /\
  file_writes
    (trace_of (get_klines decimal_int_of_str decimal_float_of_str 100 false
                 (klines_env 1000 two_klines) svc0)) <> [].
Proof.
  destruct (disk_failure_is_swallowed decimal_int_of_str decimal_float_of_str
              svc0 100 false (klines_env 1000 two_klines) false)
    as (Hv & _ & _ & _ & Hw).
  split.
  - exact Hv.
  - apply Hw; vm_compute; reflexivity.
Defined.

(** With a TTL of -1, candles fetched at 1000 are fetched again at 1000. *)
Lemma negative_ttl_always_fetches_witness :
  fetched (get_klines decimal_int_of_str decimal_float_of_str 100 false
             (klines_env 1000 two_klines) svc_negative_ttl) = true.
Proof.
  destruct (negative_ttl_always_fetches decimal_int_of_str decimal_float_of_str
              svc_negative_ttl) as [Hk _].
  - vm_compute. reflexivity.
  - apply (Hk 100 false (klines_env 1000 two_klines)). vm_compute. discriminate.
Defined.

(** The quote is fetched at 1000 and the candles at 1040: at 1060 the quote
    of 1000 is served from the cache. *)
Lemma fetch_of_one_entry_refreshes_the_other_witness :
  let o := get_klines decimal_int_of_str decimal_float_of_str 100 false
             (klines_env 1040 two_klines) svc_quoted in
  get_ticker_price decimal_float_of_str false (ticker_env 1060 ∅) (state_of o)
  = (Ok price_50100, state_of o, []).
Proof.
  intros o.
  destruct (fetch_of_one_entry_refreshes_the_other decimal_int_of_str
              decimal_float_of_str svc_quoted) as [Hk _].
  apply (Hk 100 false (klines_env 1040 two_klines) two_candles price_50100
           (ticker_env 1060 ∅)).
  - vm_compute. reflexivity.
  - vm_compute. reflexivity.
  - vm_compute. reflexivity.
  - vm_compute. reflexivity.
  - vm_compute. discriminate.
Defined.

(** The engine on a single candle whose close is NaN. *)
Lemma signal_engine_never_raises_witness :
  (exists ma : option float, compute_ma sum_left strategy2 [nan_candle] = Ok ma) /\
  (exists signal : Signal, generate sum_left strategy2 [nan_candle] = Ok signal).
Proof.
  apply (signal_engine_never_raises sum_left 2 strategy2 [nan_candle]).
  reflexivity.
Defined.

(** A candle before the last two does not change the signal of a moving
    average over two candles. *)
Lemma older_candles_do_not_matter_witness :
  compute_ma sum_left strategy2 ([candle_closing_at 1] ++ two_candles)
  = compute_ma sum_left strategy2 two_candles /\
  generate sum_left strategy2 ([candle_closing_at 1] ++ two_candles)
  = generate sum_left strategy2 two_candles.
Proof.
  apply (older_candles_do_not_matter sum_left strategy2 [candle_closing_at 1]
           two_candles).
  vm_compute. split; discriminate.
Defined.

(** The last close is NaN. *)
Lemma nan_gives_hold_witness :
  generate sum_left strategy2 [candle_closing_at 10; nan_candle] = Ok HOLD.
Proof.
  apply (nan_gives_hold sum_left strategy2 [candle_closing_at 10; nan_candle]
           nan_candle).
  - vm_compute. split; discriminate.
  - reflexivity.
  - left. reflexivity.
Defined.

(** The order of an accepted LONG call. *)
Lemma execute_sends_fixed_size_market_orders_witness :
  exists r : request,
    request_of (CallPlaceMarketOrder "BTCUSDT" "BUY" size_0_001) = Some r /\
    signed r = true /\
    params r !! "quantity" = Some (PFloat size_0_001).
Proof.
  destruct (execute_sends_fixed_size_market_orders LONG (env_accept 1000 1) om0
              (CallPlaceMarketOrder "BTCUSDT" "BUY" size_0_001))
    as (r & Hr & Hsigned & _ & [-> | (_ & _ & _ & Hq & _)]).
  - vm_compute. right. left. reflexivity.
  - discriminate Hr.
  - exists r. split_and!; [exact Hr | exact Hsigned | exact Hq].
Defined.

(** Both entries fetched at 1000, both asked for at 1010. *)
Lemma gather_on_fresh_cache_calls_nothing_witness :
  exists p : float,
    ticker_price (_cache svc_fetched) = Some p /\
    get_klines_and_ticker decimal_int_of_str decimal_float_of_str 100 false
      (klines_env 1010 []) (ticker_env 1010 ∅) [KlinesTurn; TickerTurn] svc_fetched
    = (Some (Ok (candles (_cache svc_fetched), p)), svc_fetched, []).
Proof.
  apply (gather_on_fresh_cache_calls_nothing decimal_int_of_str
           decimal_float_of_str 100 false (klines_env 1010 [])
           (ticker_env 1010 ∅) svc_fetched [KlinesTurn; TickerTurn]).
  - vm_compute. reflexivity.
  - vm_compute. reflexivity.
Defined.


(** The ping fails. *)
Lemma failed_ping_raises_and_exit_one_means_no_candles_witness :
  Cli.run_pipeline sum_left decimal_int_of_str decimal_float_of_str config0 false
    pipeline_env_no_ping
  = (Some (Raise (BinanceClientError "Request failed: " None)), [Ping; CloseClient]).
Proof.
  destruct (failed_ping_raises_and_exit_one_means_no_candles sum_left
              decimal_int_of_str decimal_float_of_str config0 false
              pipeline_env_no_ping) as [Hping _].
  apply (Hping "Request failed: " None). reflexivity.
Defined.

(** Closes 50050 and 50150 with a period of 2: LONG, and one BUY order. *)
Lemma live_run_is_not_held_back_by_cooldown_witness :
  let o := Cli.run_pipeline sum_left decimal_int_of_str decimal_float_of_str
             config0 false pipeline_env0 in
  o.1 = Some (Ok 0) /\
  List.filter is_order o.2
  = [Core (CallPlaceMarketOrder "BTCUSDT" "BUY" size_0_001)].
Proof.
  apply (live_run_is_not_held_back_by_cooldown sum_left decimal_int_of_str
           decimal_float_of_str config0 pipeline_env0 two_candles price_50100
           strategy2 LONG).
  - reflexivity.
  - vm_compute. reflexivity.
  - vm_compute. reflexivity.
  - reflexivity.
  - vm_compute. reflexivity.
  - discriminate.
  - reflexivity.
  - vm_compute. discriminate.
Defined.

(** [--live] without credentials; [--dry-run] without credentials. *)
Lemma run_checks_credentials_unless_dry_run_witness :
  Cli.run sum_left decimal_int_of_str decimal_float_of_str config0 false true
    pipeline_env0 = (Some (Ok 1), []) /\
  Cli.run sum_left decimal_int_of_str decimal_float_of_str config0 true false
    pipeline_env0
  = Cli.run_pipeline sum_left decimal_int_of_str decimal_float_of_str
      (Settings.with_dry_run config0 true) true pipeline_env0.
Proof.
  split.
  - destruct (run_checks_credentials_unless_dry_run sum_left decimal_int_of_str
                decimal_float_of_str config0 false true pipeline_env0)
      as (Hlive & _).
    apply Hlive; [reflexivity | left; reflexivity].
  - destruct (run_checks_credentials_unless_dry_run sum_left decimal_int_of_str
                decimal_float_of_str config0 true false pipeline_env0)
      as (_ & Hdry & _).
    apply Hdry; reflexivity.
Defined.
